(** * libmantle: the sel4cp API simulator and the mantle wrappers

    A shallow embedding of
      - [examples/tutorial/start/extra/simulator.h] (the sim4cp mock of the
        sel4cp API together with the scripted [simulate] scenario), and
      - [library/libmantle.h] (the [mantle_*] wrappers),
    followed by the properties of the simulator.

    C objects of type [uint64_t], [uint32_t], [uint16_t] and [uint8_t] are
    modelled as [Z] with their wrap-around written out.  The global variables
    of the two files form one record, [sim_state], which every function
    threads explicitly. *)

From Stdlib Require Import ZArith List String Ascii Bool Lia.
From stdpp Require Import base list.
Import ListNotations.

Local Open Scope Z_scope.

(* ===================================================================== *)
(** ** Machine integers *)
(* ===================================================================== *)

Module CInt.

Definition u8  (x : Z) : Z := x mod 2 ^ 8.
Definition u16 (x : Z) : Z := x mod 2 ^ 16.
Definition u64 (x : Z) : Z := x mod 2 ^ 64.

Definition INT_MAX : Z := 2 ^ 31 - 1.

(** [E1 << E2] on operands of type [int] after promotion (C11 6.5.7):
    the behaviour is undefined when the right operand is negative or at
    least the width of the promoted left operand, and, for a signed
    nonnegative left operand, when [E1 * 2^E2] is not representable in
    [int].  [None] stands for undefined behaviour. *)
Definition shl_int (e1 e2 : Z) : option Z :=
  if (e2 <? 0) || (32 <=? e2) then None
  else if e1 <? 0 then None
  else if e1 * 2 ^ e2 <=? INT_MAX then Some (e1 * 2 ^ e2)
  else None.

(** [E1 << E2] and [E1 >> E2] on [uint64_t], for a shift count below 64. *)
Definition shl_u64 (e1 e2 : Z) : Z := u64 (Z.shiftl e1 e2).
Definition shr_u64 (e1 e2 : Z) : Z := Z.shiftr e1 e2.

End CInt.
Import CInt.

(* ===================================================================== *)
(** ** libseL4: message info words *)
(* ===================================================================== *)

(** [struct seL4_MessageInfo { uint64_t words[1]; }] *)
Record seL4_MessageInfo_t : Type := MkMessageInfo { words0 : Z }.

Definition sel4cp_msginfo : Type := seL4_MessageInfo_t.

Definition seL4_MessageInfo_new (label capsUnwrapped extraCaps length : Z)
  : seL4_MessageInfo_t :=
  MkMessageInfo
    (Z.lor (Z.lor (Z.lor (Z.lor 0
       (shl_u64 (Z.land label 0xfffffffffffff) 12))
       (shl_u64 (Z.land capsUnwrapped 0x7) 9))
       (shl_u64 (Z.land extraCaps 0x3) 7))
       (Z.land length 0x7f)).

Definition seL4_MessageInfo_get_label (msginfo : seL4_MessageInfo_t) : Z :=
  shr_u64 (Z.land (words0 msginfo) 0xfffffffffffff000) 12.

Definition seL4_MessageInfo_get_length (msginfo : seL4_MessageInfo_t) : Z :=
  Z.land (words0 msginfo) 0x7f.

(** [sel4cp_msginfo_new(uint64_t label, uint16_t count)] *)
Definition sel4cp_msginfo_new (label count : Z) : sel4cp_msginfo :=
  seL4_MessageInfo_new label 0 0 count.

Definition sel4cp_msginfo_get_label (msginfo : sel4cp_msginfo) : Z :=
  seL4_MessageInfo_get_label msginfo.

(* ===================================================================== *)
(** ** Simulation state *)
(* ===================================================================== *)

Definition SIM_CALLTYPE_RECV : Z := 0.
Definition SIM_CALLTYPE_REPLYRECV : Z := 1.
Definition SIM_CALLTYPE_PPCALL : Z := 2.

Definition SEL4CP_MAX_CHANNELS : Z := 63.

(** The globals of [simulator.h] and [libmantle.h].  [sim_pinpad_input] is
    the single cell of the one-byte buffer; [dbg_out] records, in order, the
    strings handed to [sel4cp_dbg_puts] (whose body is empty in the
    simulator).  The assignment of the buffer's address to the external
    [pinpad_input] at the head of [simulate] stores a link-time constant and
    is not represented. *)
Record sim_state : Type := MkSim {
  sim_calltype     : Z;
  sim_tick         : Z;
  sim_notified     : Z;
  sim_irq_acked    : Z;
  sim_ppcalled     : Z;
  sim_reply_label  : Z;
  sim_msg_register : list Z;
  sim_return_badge : Z;
  debug            : Z;
  sim_pinpad_input : Z;
  sim_stage        : Z;
  sim_irq_delay    : Z;
  sim_next_digit   : Z;
  mantle_ret_count : Z;
  mantle_ret_badge : Z;
  dbg_out          : list string
}.

Definition initial_state : sim_state :=
  {| sim_calltype     := SIM_CALLTYPE_RECV;
     sim_tick         := 0;
     sim_notified     := 0;
     sim_irq_acked    := 0;
     sim_ppcalled     := 0;
     sim_reply_label  := 0;
     sim_msg_register := replicate 121 0;
     sim_return_badge := 0;
     debug            := 0;
     sim_pinpad_input := 0;
     sim_stage        := 0;
     sim_irq_delay    := 1000000;
     sim_next_digit   := 5;
     mantle_ret_count := 0;
     mantle_ret_badge := 0;
     dbg_out          := [] |}.

(** Assignments to single globals. *)
Definition set_sim_calltype (v : Z) (s : sim_state) : sim_state :=
  MkSim v (sim_tick s) (sim_notified s) (sim_irq_acked s) (sim_ppcalled s)
    (sim_reply_label s) (sim_msg_register s) (sim_return_badge s) (debug s)
    (sim_pinpad_input s) (sim_stage s) (sim_irq_delay s) (sim_next_digit s)
    (mantle_ret_count s) (mantle_ret_badge s) (dbg_out s).
Definition set_sim_tick (v : Z) (s : sim_state) : sim_state :=
  MkSim (sim_calltype s) v (sim_notified s) (sim_irq_acked s) (sim_ppcalled s)
    (sim_reply_label s) (sim_msg_register s) (sim_return_badge s) (debug s)
    (sim_pinpad_input s) (sim_stage s) (sim_irq_delay s) (sim_next_digit s)
    (mantle_ret_count s) (mantle_ret_badge s) (dbg_out s).
Definition set_sim_notified (v : Z) (s : sim_state) : sim_state :=
  MkSim (sim_calltype s) (sim_tick s) v (sim_irq_acked s) (sim_ppcalled s)
    (sim_reply_label s) (sim_msg_register s) (sim_return_badge s) (debug s)
    (sim_pinpad_input s) (sim_stage s) (sim_irq_delay s) (sim_next_digit s)
    (mantle_ret_count s) (mantle_ret_badge s) (dbg_out s).
Definition set_sim_irq_acked (v : Z) (s : sim_state) : sim_state :=
  MkSim (sim_calltype s) (sim_tick s) (sim_notified s) v (sim_ppcalled s)
    (sim_reply_label s) (sim_msg_register s) (sim_return_badge s) (debug s)
    (sim_pinpad_input s) (sim_stage s) (sim_irq_delay s) (sim_next_digit s)
    (mantle_ret_count s) (mantle_ret_badge s) (dbg_out s).
Definition set_sim_ppcalled (v : Z) (s : sim_state) : sim_state :=
  MkSim (sim_calltype s) (sim_tick s) (sim_notified s) (sim_irq_acked s) v
    (sim_reply_label s) (sim_msg_register s) (sim_return_badge s) (debug s)
    (sim_pinpad_input s) (sim_stage s) (sim_irq_delay s) (sim_next_digit s)
    (mantle_ret_count s) (mantle_ret_badge s) (dbg_out s).
Definition set_sim_reply_label (v : Z) (s : sim_state) : sim_state :=
  MkSim (sim_calltype s) (sim_tick s) (sim_notified s) (sim_irq_acked s)
    (sim_ppcalled s) v (sim_msg_register s) (sim_return_badge s) (debug s)
    (sim_pinpad_input s) (sim_stage s) (sim_irq_delay s) (sim_next_digit s)
    (mantle_ret_count s) (mantle_ret_badge s) (dbg_out s).
Definition set_sim_msg_register (v : list Z) (s : sim_state) : sim_state :=
  MkSim (sim_calltype s) (sim_tick s) (sim_notified s) (sim_irq_acked s)
    (sim_ppcalled s) (sim_reply_label s) v (sim_return_badge s) (debug s)
    (sim_pinpad_input s) (sim_stage s) (sim_irq_delay s) (sim_next_digit s)
    (mantle_ret_count s) (mantle_ret_badge s) (dbg_out s).
Definition set_sim_return_badge (v : Z) (s : sim_state) : sim_state :=
  MkSim (sim_calltype s) (sim_tick s) (sim_notified s) (sim_irq_acked s)
    (sim_ppcalled s) (sim_reply_label s) (sim_msg_register s) v (debug s)
    (sim_pinpad_input s) (sim_stage s) (sim_irq_delay s) (sim_next_digit s)
    (mantle_ret_count s) (mantle_ret_badge s) (dbg_out s).
Definition set_debug (v : Z) (s : sim_state) : sim_state :=
  MkSim (sim_calltype s) (sim_tick s) (sim_notified s) (sim_irq_acked s)
    (sim_ppcalled s) (sim_reply_label s) (sim_msg_register s)
    (sim_return_badge s) v
    (sim_pinpad_input s) (sim_stage s) (sim_irq_delay s) (sim_next_digit s)
    (mantle_ret_count s) (mantle_ret_badge s) (dbg_out s).
Definition set_sim_pinpad_input (v : Z) (s : sim_state) : sim_state :=
  MkSim (sim_calltype s) (sim_tick s) (sim_notified s) (sim_irq_acked s)
    (sim_ppcalled s) (sim_reply_label s) (sim_msg_register s)
    (sim_return_badge s) (debug s)
    v (sim_stage s) (sim_irq_delay s) (sim_next_digit s)
    (mantle_ret_count s) (mantle_ret_badge s) (dbg_out s).
Definition set_sim_stage (v : Z) (s : sim_state) : sim_state :=
  MkSim (sim_calltype s) (sim_tick s) (sim_notified s) (sim_irq_acked s)
    (sim_ppcalled s) (sim_reply_label s) (sim_msg_register s)
    (sim_return_badge s) (debug s)
    (sim_pinpad_input s) v (sim_irq_delay s) (sim_next_digit s)
    (mantle_ret_count s) (mantle_ret_badge s) (dbg_out s).
Definition set_sim_irq_delay (v : Z) (s : sim_state) : sim_state :=
  MkSim (sim_calltype s) (sim_tick s) (sim_notified s) (sim_irq_acked s)
    (sim_ppcalled s) (sim_reply_label s) (sim_msg_register s)
    (sim_return_badge s) (debug s)
    (sim_pinpad_input s) (sim_stage s) v (sim_next_digit s)
    (mantle_ret_count s) (mantle_ret_badge s) (dbg_out s).
Definition set_sim_next_digit (v : Z) (s : sim_state) : sim_state :=
  MkSim (sim_calltype s) (sim_tick s) (sim_notified s) (sim_irq_acked s)
    (sim_ppcalled s) (sim_reply_label s) (sim_msg_register s)
    (sim_return_badge s) (debug s)
    (sim_pinpad_input s) (sim_stage s) (sim_irq_delay s) v
    (mantle_ret_count s) (mantle_ret_badge s) (dbg_out s).
Definition set_mantle_ret_count (v : Z) (s : sim_state) : sim_state :=
  MkSim (sim_calltype s) (sim_tick s) (sim_notified s) (sim_irq_acked s)
    (sim_ppcalled s) (sim_reply_label s) (sim_msg_register s)
    (sim_return_badge s) (debug s)
    (sim_pinpad_input s) (sim_stage s) (sim_irq_delay s) (sim_next_digit s)
    v (mantle_ret_badge s) (dbg_out s).
Definition set_mantle_ret_badge (v : Z) (s : sim_state) : sim_state :=
  MkSim (sim_calltype s) (sim_tick s) (sim_notified s) (sim_irq_acked s)
    (sim_ppcalled s) (sim_reply_label s) (sim_msg_register s)
    (sim_return_badge s) (debug s)
    (sim_pinpad_input s) (sim_stage s) (sim_irq_delay s) (sim_next_digit s)
    (mantle_ret_count s) v (dbg_out s).
Definition set_dbg_out (v : list string) (s : sim_state) : sim_state :=
  MkSim (sim_calltype s) (sim_tick s) (sim_notified s) (sim_irq_acked s)
    (sim_ppcalled s) (sim_reply_label s) (sim_msg_register s)
    (sim_return_badge s) (debug s)
    (sim_pinpad_input s) (sim_stage s) (sim_irq_delay s) (sim_next_digit s)
    (mantle_ret_count s) (mantle_ret_badge s) v.

(* ===================================================================== *)
(** ** sel4cp and sim4cp API *)
(* ===================================================================== *)

Definition sel4cp_channel : Type := Z.

Definition nl : string := String (ascii_of_nat 10) EmptyString.

(** [sel4cp_dbg_puts]: no output in the simulator; the call is recorded. *)
Definition sel4cp_dbg_puts (msg : string) (s : sim_state) : sim_state :=
  set_dbg_out (dbg_out s ++ [msg]) s.

(** [sim_notified |= (1 << ch)]: the literal [1] has type [int], so the
    shift is an [int] shift; its value is converted to [uint64_t] for the
    compound assignment. *)
Definition sel4cp_notify (ch : sel4cp_channel) (s : sim_state)
  : option sim_state :=
  if SEL4CP_MAX_CHANNELS <? ch then
    Some (sel4cp_dbg_puts ("[MOCK] sel4cp_notify: ch too large" ++ nl) s)
  else
    match shl_int 1 ch with
    | Some bit => Some (set_sim_notified (Z.lor (sim_notified s) (u64 bit)) s)
    | None => None
    end.

Definition sel4cp_irq_ack (ch : sel4cp_channel) (s : sim_state)
  : option sim_state :=
  if SEL4CP_MAX_CHANNELS <? ch then
    Some (sel4cp_dbg_puts ("[MOCK] sel4cp_irq_ack: ch too large" ++ nl) s)
  else
    match shl_int 1 ch with
    | Some bit => Some (set_sim_irq_acked (Z.lor (sim_irq_acked s) (u64 bit)) s)
    | None => None
    end.

(** [sel4cp_mr_set(uint8_t mr, uint64_t value)] *)
Definition sel4cp_mr_set (mr value : Z) (s : sim_state) : sim_state :=
  if 120 <? mr then
    sel4cp_dbg_puts ("[MOCK] sel4cp_mr_set: mr too large" ++ nl) s
  else
    set_sim_msg_register (<[Z.to_nat mr := value]> (sim_msg_register s)) s.

Definition sel4cp_mr_get (mr : Z) (s : sim_state) : Z * sim_state :=
  if 120 <? mr then
    (0, sel4cp_dbg_puts ("[MOCK] sel4cp_mr_get: mr too large" ++ nl) s)
  else
    (default 0 (sim_msg_register s !! Z.to_nat mr), s).

(* ===================================================================== *)
(** ** The scripted scenario: [simulate] *)
(* ===================================================================== *)

Definition PPCALL_BADGE : Z := 9223372036854775808.

(** stage 0: client1 makes a ppcall *)
Definition stage0 (s : sim_state) : sim_state :=
  if sim_stage s =? 0 then
    let s := set_sim_return_badge PPCALL_BADGE s in
    let s := set_sim_return_badge (Z.lor (sim_return_badge s) 1) s in
    set_sim_stage 1 s
  else s.

(** stage 1: client1 waits for positive response *)
Definition stage1 (s : sim_state) : sim_state :=
  if sim_stage s =? 1 then
    if sim_reply_label s =? 1 then set_sim_stage 2 s else s
  else s.

(** The three steps shared by the two PIN entry stages. *)
Definition countdown (s : sim_state) : sim_state :=
  if 1 <? sim_irq_delay s
  then set_sim_irq_delay (u64 (sim_irq_delay s - 1)) s
  else s.

Definition fire_irq (s : sim_state) : sim_state :=
  if sim_irq_delay s =? 1 then
    let s := set_sim_irq_delay 0 s in
    let s := set_sim_pinpad_input (u8 (sim_next_digit s)) s in
    let s := set_sim_return_badge 0 s in
    set_sim_return_badge (Z.lor (sim_return_badge s) 1) s
  else s.

Definition unmask_if_acked (reload : Z) (s : sim_state) : sim_state :=
  if sim_irq_delay s =? 0 then
    if negb (Z.land (sim_irq_acked s) 1 =? 0) then
      let s := set_sim_next_digit (u64 (sim_next_digit s - 1)) s in
      set_sim_irq_delay reload s
    else s
  else s.

(** stage 2: user enters PIN (generates IRQs) *)
Definition stage2 (s : sim_state) : sim_state :=
  if sim_stage s =? 2 then
    let s := countdown s in
    let s := fire_irq s in
    let s := unmask_if_acked 5000000 s in
    if sim_next_digit s <? 2 then set_sim_stage 3 s else s
  else s.

(** stage 3: client 1 awaits notification and then client2 makes ppcall *)
Definition stage3 (s : sim_state) : sim_state :=
  if sim_stage s =? 3 then
    if negb (Z.land (sim_notified s) 2 =? 0) then
      let s := set_sim_return_badge PPCALL_BADGE s in
      let s := set_sim_return_badge (Z.lor (sim_return_badge s) 2) s in
      let s := set_sim_stage 4 s in
      set_sim_reply_label 0 s
    else s
  else s.

(** stage 4: client2 waits for positive response *)
Definition stage4 (s : sim_state) : sim_state :=
  if sim_stage s =? 4 then
    let s := set_debug 1 s in
    if sim_reply_label s =? 1 then
      let s := set_sim_irq_delay 10000 s in
      let s := set_sim_next_digit 5 s in
      set_sim_stage 5 s
    else s
  else s.

(** stage 5: user enters PIN while client 1 tries to screw things up *)
Definition stage5 (s : sim_state) : sim_state :=
  if sim_stage s =? 5 then
    let s := set_debug 0 s in
    let s := countdown s in
    let s :=
      if sim_irq_delay s =? 100 then
        let s := set_sim_return_badge PPCALL_BADGE s in
        set_sim_return_badge (Z.lor (sim_return_badge s) 1) s
      else s in
    let s := fire_irq s in
    let s := unmask_if_acked 7500000 s in
    if sim_next_digit s <? 2 then set_sim_stage 6 s else s
  else s.

(** The body of [simulate] after the protected-call early return. *)
Definition scenario (s : sim_state) : sim_state :=
  stage5 (stage4 (stage3 (stage2 (stage1 (stage0 s))))).

(** stage 6: hang forever *)
Definition simulate (s : sim_state) : sel4cp_msginfo * sim_state :=
  if sim_calltype s =? SIM_CALLTYPE_PPCALL then
    (sel4cp_msginfo_new 0 0, s)
  else
    (sel4cp_msginfo_new 0 0, scenario s).

(* ===================================================================== *)
(** ** The blocking primitives *)
(* ===================================================================== *)

Definition sel4cp_ppcall (ch : sel4cp_channel) (msginfo : sel4cp_msginfo)
    (s : sim_state) : sel4cp_msginfo * sim_state :=
  let s :=
    if SEL4CP_MAX_CHANNELS <? ch
    then sel4cp_dbg_puts ("[MOCK] sel4cp_ppcall: ch too large" ++ nl) s
    else s in
  let s := set_sim_tick (u64 (sim_tick s + 1)) s in
  let s := set_sim_ppcalled ch s in
  let s := set_sim_calltype SIM_CALLTYPE_PPCALL s in
  let s := set_sim_reply_label (sel4cp_msginfo_get_label msginfo) s in
  simulate s.

(** [seL4_Recv(src, &sender)]: the value stored through [sender] is the
    second component of the result. *)
Definition seL4_Recv (src : Z) (s : sim_state)
  : seL4_MessageInfo_t * Z * sim_state :=
  let s := set_sim_tick (u64 (sim_tick s + 1)) s in
  let s := set_sim_calltype SIM_CALLTYPE_RECV s in
  let s := set_sim_return_badge 0 s in
  let (ret, s) := simulate s in
  let sender := sim_return_badge s in
  let s := set_sim_notified 0 s in
  let s := set_sim_irq_acked 0 s in
  let s := set_sim_ppcalled 0 s in
  (ret, sender, s).

Definition seL4_ReplyRecv (src : Z) (reply_tag : seL4_MessageInfo_t)
    (s : sim_state) : seL4_MessageInfo_t * Z * sim_state :=
  let s := set_sim_tick (u64 (sim_tick s + 1)) s in
  let s := set_sim_calltype SIM_CALLTYPE_REPLYRECV s in
  let s := set_sim_reply_label (sel4cp_msginfo_get_label reply_tag) s in
  let s := set_sim_return_badge 0 s in
  let (ret, s) := simulate s in
  let sender := sim_return_badge s in
  let s := set_sim_notified 0 s in
  let s := set_sim_irq_acked 0 s in
  let s := set_sim_ppcalled 0 s in
  (ret, sender, s).

(* ===================================================================== *)
(** ** libmantle API - wrappers *)
(* ===================================================================== *)

Definition mantle_notify (ch : sel4cp_channel) (s : sim_state)
  : option (Z * sim_state) :=
  match sel4cp_notify ch s with
  | Some s => Some (0, s)
  | None => None
  end.

Definition mantle_irq_ack (ch : sel4cp_channel) (s : sim_state)
  : option (Z * sim_state) :=
  match sel4cp_irq_ack ch s with
  | Some s => Some (0, s)
  | None => None
  end.

Definition mantle_mr_set (mr value : Z) (s : sim_state) : Z * sim_state :=
  (0, sel4cp_mr_set mr value s).

Definition mantle_mr_get (mr : Z) (s : sim_state) : Z * sim_state :=
  sel4cp_mr_get mr s.

Definition mantle_get_ret_count (s : sim_state) : Z := mantle_ret_count s.
Definition mantle_get_ret_badge (s : sim_state) : Z := mantle_ret_badge s.

Definition mantle_ppcall (ch : sel4cp_channel) (msginfo_label msginfo_count : Z)
    (s : sim_state) : Z * sim_state :=
  let msginfo := sel4cp_msginfo_new msginfo_label msginfo_count in
  let (ret, s) := sel4cp_ppcall ch msginfo s in
  let s := set_mantle_ret_count (u16 (seL4_MessageInfo_get_length msginfo)) s in
  (sel4cp_msginfo_get_label ret, s).

Definition mantle_recv (s : sim_state) : Z * sim_state :=
  let '(ret, sender, s) := seL4_Recv 1 s in
  let s := set_mantle_ret_badge sender s in
  let s := set_mantle_ret_count (u16 (seL4_MessageInfo_get_length ret)) s in
  (sel4cp_msginfo_get_label ret, s).

Definition mantle_replyrecv (reply_tag_label reply_tag_count : Z)
    (s : sim_state) : Z * sim_state :=
  let reply_tag := sel4cp_msginfo_new reply_tag_label reply_tag_count in
  let '(ret, sender, s) := seL4_ReplyRecv 1 reply_tag s in
  let s := set_mantle_ret_badge sender s in
  let s := set_mantle_ret_count (u16 (seL4_MessageInfo_get_length ret)) s in
  (sel4cp_msginfo_get_label ret, s).

(* ===================================================================== *)
(** ** Call sequences of the protection domain under simulation *)
(* ===================================================================== *)

(** The two receive-style calls. *)
Inductive wait_call : Type :=
  | Recv (src : Z)
  | ReplyRecv (src : Z) (reply_tag : seL4_MessageInfo_t).

Definition wait_step (c : wait_call) (s : sim_state)
  : seL4_MessageInfo_t * Z * sim_state :=
  match c with
  | Recv src => seL4_Recv src s
  | ReplyRecv src reply_tag => seL4_ReplyRecv src reply_tag s
  end.

(** The badges delivered by a sequence of receive-style calls, in order,
    and the state they leave. *)
Fixpoint run_waits (cs : list wait_call) (s : sim_state)
  : list Z * sim_state :=
  match cs with
  | [] => ([], s)
  | c :: cs' =>
      let '(_, badge, s1) := wait_step c s in
      let (badges, s2) := run_waits cs' s1 in
      (badge :: badges, s2)
  end.

(** Every entry point of [simulator.h]. *)
Inductive api_call : Type :=
  | Notify (ch : sel4cp_channel)
  | IrqAck (ch : sel4cp_channel)
  | MrSet (mr value : Z)
  | MrGet (mr : Z)
  | PPCall (ch : sel4cp_channel) (msginfo : sel4cp_msginfo)
  | Wait (c : wait_call).

(** The state an entry point leaves; [None] when its behaviour is
    undefined. *)
Definition api_exec (c : api_call) (s : sim_state) : option sim_state :=
  match c with
  | Notify ch => sel4cp_notify ch s
  | IrqAck ch => sel4cp_irq_ack ch s
  | MrSet mr value => Some (sel4cp_mr_set mr value s)
  | MrGet mr => Some (snd (sel4cp_mr_get mr s))
  | PPCall ch msginfo => Some (snd (sel4cp_ppcall ch msginfo s))
  | Wait c => Some (snd (wait_step c s))
  end.

(** States reached from [s0] by any finite sequence of calls. *)
Inductive reachable_from (s0 : sim_state) : sim_state -> Prop :=
  | reach_here : reachable_from s0 s0
  | reach_call s c s' :
      reachable_from s0 s -> api_exec c s = Some s' -> reachable_from s0 s'.

(** The neutral response envelope: label 0, length 0. *)
Definition empty_response (m : sel4cp_msginfo) : Prop :=
  seL4_MessageInfo_get_label m = 0 /\ seL4_MessageInfo_get_length m = 0.

Definition TERMINAL_STAGE : Z := 6.

(** *** PIN entry *)

(** Badge of a plain notification on channel 0: the simulated keypad IRQ. *)
Definition IRQ_BADGE : Z := 1.

Definition pin_stage (s : sim_state) : Prop :=
  sim_stage s = 2 \/ sim_stage s = 5.

(** The countdown loaded once a digit has been acknowledged. *)
Definition reload_delay (s : sim_state) : Z :=
  if sim_stage s =? 2 then 5000000 else 7500000.

(** A PIN entry stage whose timer holds [D] on entry to the next call, with
    digits left to type and no acknowledgement pending on channel 0. *)
Definition pin_entry (D : Z) (s : sim_state) : Prop :=
  pin_stage s /\
  sim_irq_delay s = D /\ 1 < D < 2 ^ 64 /\
  2 <= sim_next_digit s < 2 ^ 64 /\
  Z.land (sim_irq_acked s) 1 = 0.

(** The calls [cs] are [n] in number, the last one delivers the keypad IRQ
    and none before it does. *)
Definition first_irq_on_call (n : nat) (cs : list wait_call) (s : sim_state)
  : Prop :=
  length cs = n /\
  exists badges,
    fst (run_waits cs s) = badges ++ [IRQ_BADGE] /\
    Forall (fun b => b <> IRQ_BADGE) badges.

(** Stage 2 as the scenario enters it, with the timer at [D]. *)
Definition pin_entry_state (D : Z) : sim_state :=
  set_sim_irq_delay D (set_sim_stage 2 initial_state).

(** The opening of the scripted run: a first [recv], then a reply with
    label 1. *)
Definition opening_calls : list wait_call :=
  [Recv 1; ReplyRecv 1 (sel4cp_msginfo_new 1 0)].

(** *** The receive-style calls around [simulate]

    The assignments [seL4_Recv] and [seL4_ReplyRecv] make before they call
    [simulate], and the ones they make after it. *)
Definition recv_entry (s : sim_state) : sim_state :=
  set_sim_return_badge 0
    (set_sim_calltype SIM_CALLTYPE_RECV
      (set_sim_tick (u64 (sim_tick s + 1)) s)).

Definition replyrecv_entry (reply_tag : seL4_MessageInfo_t) (s : sim_state)
  : sim_state :=
  set_sim_return_badge 0
    (set_sim_reply_label (sel4cp_msginfo_get_label reply_tag)
      (set_sim_calltype SIM_CALLTYPE_REPLYRECV
        (set_sim_tick (u64 (sim_tick s + 1)) s))).

Definition clear_flags (s : sim_state) : sim_state :=
  set_sim_ppcalled 0 (set_sim_irq_acked 0 (set_sim_notified 0 s)).

Definition wait_entry (c : wait_call) (s : sim_state) : sim_state :=
  match c with
  | Recv _ => recv_entry s
  | ReplyRecv _ reply_tag => replyrecv_entry reply_tag s
  end.

(** The badge a receive-style call delivers and the state it leaves. *)
Definition wait_badge (c : wait_call) (s : sim_state) : Z :=
  sim_return_badge (scenario (wait_entry c s)).

Definition wait_state (c : wait_call) (s : sim_state) : sim_state :=
  clear_flags (scenario (wait_entry c s)).

(** The state in which the keypad IRQ has just been delivered. *)
Definition irq_fired (s : sim_state) : sim_state :=
  set_sim_return_badge IRQ_BADGE
    (set_sim_pinpad_input (u8 (sim_next_digit s))
      (set_sim_irq_delay 0 s)).

(** The state in which an acknowledged digit has been consumed. *)
Definition digit_acked (s : sim_state) : sim_state :=
  set_sim_irq_delay (reload_delay s)
    (set_sim_next_digit (u64 (sim_next_digit s - 1)) s).

(** The request used to exhibit the return count of [mantle_ppcall]. *)
Definition sample_request : sel4cp_msginfo := sel4cp_msginfo_new 7 3.

(** The terminal stage as the scenario reaches it. *)
Definition terminal_state : sim_state :=
  set_sim_next_digit 1 (set_sim_stage TERMINAL_STAGE initial_state).

(** A state in which a protected call is on record. *)
Definition ppcall_outstanding_state : sim_state :=
  set_sim_calltype SIM_CALLTYPE_PPCALL initial_state.

(** *** What the scenario reads and writes *)

(** The reply label the scenario sees during a receive-style call: the one
    recorded earlier for [seL4_Recv], the label of the reply tag for
    [seL4_ReplyRecv]. *)
Definition reply_label_seen (c : wait_call) (s : sim_state) : Z :=
  match c with
  | Recv _ => sim_reply_label s
  | ReplyRecv _ reply_tag => sel4cp_msginfo_get_label reply_tag
  end.

(** The four badges the scenario ever writes, and 0 for no delivery. *)
Definition scripted_badge (b : Z) : Prop :=
  b = 0 \/ b = IRQ_BADGE \/
  b = Z.lor PPCALL_BADGE 1 \/ b = Z.lor PPCALL_BADGE 2.

(** The globals the scenario leaves alone. *)
Definition same_outside_scenario (s s' : sim_state) : Prop :=
  sim_calltype s' = sim_calltype s /\
  sim_tick s' = sim_tick s /\
  sim_notified s' = sim_notified s /\
  sim_irq_acked s' = sim_irq_acked s /\
  sim_ppcalled s' = sim_ppcalled s /\
  sim_msg_register s' = sim_msg_register s /\
  mantle_ret_count s' = mantle_ret_count s /\
  mantle_ret_badge s' = mantle_ret_badge s /\
  dbg_out s' = dbg_out s.

(** What holds of the scenario variables in every state of a run. *)
Definition script_invariant (s : sim_state) : Prop :=
  0 <= sim_stage s <= TERMINAL_STAGE /\
  1 <= sim_next_digit s <= 5 /\
  0 <= sim_irq_delay s <= 7500000 /\
  0 <= sim_pinpad_input s <= 5 /\
  (sim_stage s <= 2 \/ sim_stage s = 5 -> 2 <= sim_next_digit s).

(** A protection domain typing loop: wait for the keypad IRQ, read the
    digit from the pinpad buffer, acknowledge on channel 0 and wait once
    more; [waits] is the number of receive calls up to the IRQ. *)
Definition pin_round (waits : nat) (s : sim_state)
  : option (Z * sim_state) :=
  let (_, s1) := run_waits (repeat (Recv 1) waits) s in
  let digit := sim_pinpad_input s1 in
  match sel4cp_irq_ack 0 s1 with
  | Some s2 => Some (digit, snd (wait_step (Recv 1) s2))
  | None => None
  end.

Fixpoint pin_rounds (rounds waits : nat) (s : sim_state)
  : option (list Z * sim_state) :=
  match rounds with
  | O => Some ([], s)
  | S rounds' =>
      match pin_round waits s with
      | Some (digit, s1) =>
          match pin_rounds rounds'
                  (Z.to_nat (reload_delay s) - 1)%nat s1 with
          | Some (digits, s2) => Some (digit :: digits, s2)
          | None => None
          end
      | None => None
      end
  end.

(** The digits [n], [n - 1], ... of [k] rounds, as bytes. *)
Fixpoint digits_from (k : nat) (n : Z) : list Z :=
  match k with
  | O => []
  | S k' => u8 n :: digits_from k' (n - 1)
  end.

(* ===================================================================== *)
(** ** libmantle prelude *)
(* ===================================================================== *)

Module Prelude.

(** A prelude function either returns a value or enters its endless loop;
    both carry the state, which holds the diagnostics written so far. *)
Inductive outcome (A : Type) : Type :=
  | Returns (a : A) (s : sim_state)
  | Hangs (s : sim_state).
Arguments Returns {A} a s.
Arguments Hangs {A} s.

Definition ret {A : Type} (a : A) (s : sim_state) : outcome A := Returns a s.

Definition bind {A B : Type} (c : sim_state -> outcome A)
    (k : A -> sim_state -> outcome B) (s : sim_state) : outcome B :=
  match c s with
  | Returns a s1 => k a s1
  | Hangs s1 => Hangs s1
  end.

Definition nil : Z := 0.

(** [typedef struct { void* data; size_t size; } au_span_t;] with the
    pointer as an address. *)
Record au_span_t : Type := MkSpan { data : Z; size : Z }.

Definition au_make_span_from_string (d sz : Z) : au_span_t := MkSpan d sz.

(** [for (;;) { continue; }] after the two diagnostics. *)
Definition au_abort_internal (message : string) (s : sim_state) : outcome Z :=
  let s := sel4cp_dbg_puts "[libmantle] abort: " s in
  let s := sel4cp_dbg_puts message s in
  Hangs s.

Definition au_abort (message : au_span_t) (s : sim_state) : outcome Z :=
  let s := sel4cp_dbg_puts "[libmantle] abort: on user request" s in
  Hangs s.

Definition au_printf (format : string) (s : sim_state) : outcome Z :=
  ret nil s.



Definition au_store_cli_args (argc argv : Z) (s : sim_state) : outcome unit :=
  ret tt s.

Definition au_get_argc : sim_state -> outcome Z :=
  bind (au_abort_internal "Prelude error: argc not available on sel4cp.")
    (fun _ => ret 0).

Definition au_get_nth_arg (n : Z) : sim_state -> outcome au_span_t :=
  bind (au_abort_internal
          "Prelude error: arguments not available on sel4cp.")
    (fun _ => ret (MkSpan 0 0)).

End Prelude.

(** [mantle_make_address]: the cast of an address to a byte pointer. *)
Definition mantle_make_address (address : Z) : Z := address.

(* ===================================================================== *)
(** ** Message encoding *)
(* ===================================================================== *)

Section Encoding.

Lemma shl_u64_small a n :
  0 <= a -> 0 <= n -> a * 2 ^ n < 2 ^ 64 -> shl_u64 a n = Z.shiftl a n.
Proof.
  intros Ha Hn Hlt. unfold shl_u64, u64.
  rewrite Z.shiftl_mul_pow2 by assumption.
  apply Z.mod_small. split; [|assumption].
  apply Z.mul_nonneg_nonneg; [assumption|]. apply Z.pow_nonneg. lia.
Qed.

Lemma land_ones_bounds a n : 0 <= n -> 0 <= Z.land a (Z.ones n) < 2 ^ n.
Proof.
  intros Hn. rewrite Z.land_ones by assumption.
  apply Z.mod_pos_bound. apply Z.pow_pos_nonneg; lia.
Qed.

Lemma words0_new label capsUnwrapped extraCaps length :
  words0 (seL4_MessageInfo_new label capsUnwrapped extraCaps length) =
  Z.lor (Z.lor (Z.lor
    (Z.shiftl (Z.land label (Z.ones 52)) 12)
    (Z.shiftl (Z.land capsUnwrapped (Z.ones 3)) 9))
    (Z.shiftl (Z.land extraCaps (Z.ones 2)) 7))
    (Z.land length (Z.ones 7)).
Proof.
  unfold seL4_MessageInfo_new. cbn [words0].
  change (Z.land label _) with (Z.land label (Z.ones 52)).
  change (Z.land capsUnwrapped _) with (Z.land capsUnwrapped (Z.ones 3)).
  change (Z.land extraCaps _) with (Z.land extraCaps (Z.ones 2)).
  change (Z.land length _) with (Z.land length (Z.ones 7)).
  pose proof (land_ones_bounds label 52 ltac:(lia)) as Hl.
  pose proof (land_ones_bounds capsUnwrapped 3 ltac:(lia)) as Hc.
  pose proof (land_ones_bounds extraCaps 2 ltac:(lia)) as He.
  rewrite !shl_u64_small by lia.
  rewrite Z.lor_0_l. reflexivity.
Qed.

Ltac bits :=
  repeat first
    [ rewrite Z.land_spec | rewrite Z.lor_spec
    | rewrite Z.shiftl_spec by lia | rewrite Z.shiftr_spec by lia
    | match goal with
      | |- context [Z.testbit (Z.ones ?n) ?i] =>
          rewrite (Z.testbit_ones_nonneg n i) by lia
      | |- context [Z.testbit ?a ?i] =>
          rewrite (Z.testbit_neg_r a i) by lia
      end ].

Ltac decide_ltb :=
  repeat match goal with
    | |- context [?a <? ?b] =>
        first [ rewrite (proj2 (Z.ltb_lt a b)) by lia
              | rewrite (proj2 (Z.ltb_ge a b)) by lia ]
    end;
  rewrite ?andb_false_r, ?andb_true_r, ?orb_false_r, ?orb_false_l.

Lemma get_label_new label capsUnwrapped extraCaps length :
  seL4_MessageInfo_get_label
    (seL4_MessageInfo_new label capsUnwrapped extraCaps length)
  = Z.land label (Z.ones 52).
Proof.
  unfold seL4_MessageInfo_get_label, shr_u64. rewrite words0_new.
  change 0xfffffffffffff000 with (Z.shiftl (Z.ones 52) 12).
  apply Z.bits_inj'. intros i Hi. bits.
  replace (i + 12 - 12) with i by lia.
  destruct (Z.ltb_spec i 52); decide_ltb; reflexivity.
Qed.

Lemma get_length_new label capsUnwrapped extraCaps length :
  seL4_MessageInfo_get_length
    (seL4_MessageInfo_new label capsUnwrapped extraCaps length)
  = Z.land length (Z.ones 7).
Proof.
  unfold seL4_MessageInfo_get_length. rewrite words0_new.
  change 0x7f with (Z.ones 7).
  apply Z.bits_inj'. intros i Hi. bits.
  destruct (Z.ltb_spec i 7); bits; decide_ltb; reflexivity.
Qed.

Lemma land_ones_small a n : 0 <= a < 2 ^ n -> Z.land a (Z.ones n) = a.
Proof.
  intros Ha. destruct (Z.lt_ge_cases n 0) as [Hn|Hn].
  - rewrite Z.pow_neg_r in Ha by assumption. lia.
  - rewrite Z.land_ones by assumption. apply Z.mod_small. assumption.
Qed.

End Encoding.

(** C6. Encoding then decoding returns the label masked to 52 bits and the
    length masked to 7 bits, whatever the two capability fields hold; a label
    below [2^52] and a length below [2^7] therefore come back unchanged, and
    wider values are truncated, never rejected. *)
Theorem msginfo_roundtrip (label capsUnwrapped extraCaps length : Z) :
  let m := seL4_MessageInfo_new label capsUnwrapped extraCaps length in
  (0 <= label < 2 ^ 52 -> seL4_MessageInfo_get_label m = label) /\
  (0 <= length < 2 ^ 7 -> seL4_MessageInfo_get_length m = length) /\
  seL4_MessageInfo_get_label m = Z.land label 0xfffffffffffff /\
  seL4_MessageInfo_get_length m = Z.land length 0x7f.
Proof.
  cbv zeta. rewrite get_label_new, get_length_new.
  repeat split; try reflexivity; intros H; apply land_ones_small; assumption.
Qed.

Lemma msginfo_roundtrip_witness :
  let m := seL4_MessageInfo_new 5 7 3 100 in
  seL4_MessageInfo_get_label m = 5 /\ seL4_MessageInfo_get_length m = 100.
Proof.
  destruct (msginfo_roundtrip 5 7 3 100) as (Hl & Hn & _).
  split; [apply Hl | apply Hn]; lia.
Defined.

Lemma empty_response_new : empty_response (sel4cp_msginfo_new 0 0).
Proof. split; reflexivity. Qed.

(* ===================================================================== *)
(** ** Channel flags: [sel4cp_notify] and [sel4cp_irq_ack] *)
(* ===================================================================== *)

Section ChannelFlags.

Variable s : sim_state.

Lemma shl_int_one_low ch : 0 <= ch <= 30 -> shl_int 1 ch = Some (2 ^ ch).
Proof.
  intros Hch. unfold shl_int, INT_MAX.
  assert (Hpow : 2 ^ ch <= 2 ^ 30) by (apply Z.pow_le_mono_r; lia).
  destruct (Z.ltb_spec ch 0); [lia|].
  destruct (Z.leb_spec 32 ch); [lia|]. cbn [orb].
  rewrite Z.mul_1_l.
  destruct (Z.leb_spec (2 ^ ch) (2 ^ 31 - 1)); [reflexivity|lia].
Qed.

Lemma shl_int_one_high ch : 31 <= ch -> shl_int 1 ch = None.
Proof.
  intros Hch. unfold shl_int, INT_MAX.
  destruct (Z.ltb_spec ch 0); [lia|].
  destruct (Z.leb_spec 32 ch); [reflexivity|]. cbn [orb].
  assert (ch = 31) as -> by lia. reflexivity.
Qed.

Lemma u64_pow2_low ch : 0 <= ch <= 30 -> u64 (2 ^ ch) = 2 ^ ch.
Proof.
  intros Hch. unfold u64. apply Z.mod_small.
  assert (2 ^ ch <= 2 ^ 30) by (apply Z.pow_le_mono_r; lia).
  split; [apply Z.pow_nonneg|]; lia.
Qed.

(** Channels 0 to 30: exactly bit [ch] is added to the flag set. *)
Lemma sel4cp_notify_low ch :
  0 <= ch <= 30 ->
  sel4cp_notify ch s =
    Some (set_sim_notified (Z.lor (sim_notified s) (2 ^ ch)) s).
Proof.
  intros Hch. unfold sel4cp_notify, SEL4CP_MAX_CHANNELS.
  destruct (Z.ltb_spec 63 ch); [lia|].
  rewrite shl_int_one_low, u64_pow2_low by assumption. reflexivity.
Qed.

Lemma sel4cp_irq_ack_low ch :
  0 <= ch <= 30 ->
  sel4cp_irq_ack ch s =
    Some (set_sim_irq_acked (Z.lor (sim_irq_acked s) (2 ^ ch)) s).
Proof.
  intros Hch. unfold sel4cp_irq_ack, SEL4CP_MAX_CHANNELS.
  destruct (Z.ltb_spec 63 ch); [lia|].
  rewrite shl_int_one_low, u64_pow2_low by assumption. reflexivity.
Qed.

Lemma testbit_lor_pow2 flags ch i :
  0 <= ch -> 0 <= i ->
  Z.testbit (Z.lor flags (2 ^ ch)) i = Z.testbit flags i || (i =? ch).
Proof.
  intros Hch Hi. rewrite Z.lor_spec, Z.pow2_bits_eqb by assumption.
  rewrite (Z.eqb_sym ch i). reflexivity.
Qed.

(** Channels above 63: a diagnostic, and no flag is touched. *)
Lemma sel4cp_notify_too_large ch :
  63 < ch ->
  sel4cp_notify ch s =
    Some (sel4cp_dbg_puts ("[MOCK] sel4cp_notify: ch too large" ++ nl) s).
Proof.
  intros Hch. unfold sel4cp_notify, SEL4CP_MAX_CHANNELS.
  destruct (Z.ltb_spec 63 ch); [reflexivity|lia].
Qed.

Lemma sel4cp_irq_ack_too_large ch :
  63 < ch ->
  sel4cp_irq_ack ch s =
    Some (sel4cp_dbg_puts ("[MOCK] sel4cp_irq_ack: ch too large" ++ nl) s).
Proof.
  intros Hch. unfold sel4cp_irq_ack, SEL4CP_MAX_CHANNELS.
  destruct (Z.ltb_spec 63 ch); [reflexivity|lia].
Qed.

End ChannelFlags.

(** C2, at the channels where it fails.  For a channel from 31 to 63 the
    range check passes and [(1 << ch)] is evaluated as an [int] shift whose
    result is not representable (or whose count reaches the width of [int]):
    the behaviour of [sel4cp_notify] and of [sel4cp_irq_ack] is undefined
    there, so bit [ch] of the 64-bit flag set is not what the call is
    guaranteed to set. *)
Theorem flag_shift_undefined_31_to_63 (ch : sel4cp_channel) (s : sim_state) :
  31 <= ch <= 63 ->
  sel4cp_notify ch s = None /\ sel4cp_irq_ack ch s = None.
Proof.
  intros Hch. unfold sel4cp_notify, sel4cp_irq_ack, SEL4CP_MAX_CHANNELS.
  destruct (Z.ltb_spec 63 ch); [lia|].
  rewrite shl_int_one_high by lia. split; reflexivity.
Qed.

Lemma flag_shift_undefined_witness :
  sel4cp_notify 32 initial_state = None /\
  sel4cp_irq_ack 32 initial_state = None.
Proof. apply (flag_shift_undefined_31_to_63 32 initial_state). lia. Defined.

(** The part of C2 the code meets: channels 0 to 30 set exactly their bit,
    channels above 63 only log. *)
Lemma channel_flags_in_int_range (ch : sel4cp_channel) (s : sim_state) :
  (0 <= ch <= 30 ->
     exists s1 s2,
       sel4cp_notify ch s = Some s1 /\ sel4cp_irq_ack ch s = Some s2 /\
       s1 = set_sim_notified (sim_notified s1) s /\
       s2 = set_sim_irq_acked (sim_irq_acked s2) s /\
       forall i, 0 <= i ->
         Z.testbit (sim_notified s1) i
           = Z.testbit (sim_notified s) i || (i =? ch) /\
         Z.testbit (sim_irq_acked s2) i
           = Z.testbit (sim_irq_acked s) i || (i =? ch)) /\
  (63 < ch ->
     exists s1 s2,
       sel4cp_notify ch s = Some s1 /\ sel4cp_irq_ack ch s = Some s2 /\
       s1 = set_dbg_out (dbg_out s1) s /\ dbg_out s1 <> dbg_out s /\
       s2 = set_dbg_out (dbg_out s2) s /\ dbg_out s2 <> dbg_out s).
Proof.
  split; intros Hch.
  - eexists _, _. rewrite sel4cp_notify_low, sel4cp_irq_ack_low by assumption.
    repeat split; destruct s; cbn; apply testbit_lor_pow2; lia.
  - eexists _, _.
    rewrite sel4cp_notify_too_large, sel4cp_irq_ack_too_large by assumption.
    assert (Hne : forall (l : list string) x, l ++ [x] <> l).
    { intros l x Heq. apply (f_equal (@length _)) in Heq.
      rewrite length_app in Heq. cbn in Heq. lia. }
    unfold sel4cp_dbg_puts. repeat split; destruct s; cbn; try apply Hne.
Qed.

(* ===================================================================== *)
(** ** Register file *)
(* ===================================================================== *)

Section RegisterFile.

Variable s : sim_state.
Hypothesis Hlen : length (sim_msg_register s) = 121%nat.

(** A register written within range reads back; the others are kept. *)
Lemma mr_get_set_same mr value :
  0 <= mr <= 120 ->
  fst (sel4cp_mr_get mr (sel4cp_mr_set mr value s)) = value.
Proof.
  intros Hmr. unfold sel4cp_mr_get, sel4cp_mr_set.
  destruct (Z.ltb_spec 120 mr); [lia|].
  cbn [fst sim_msg_register set_sim_msg_register].
  rewrite list_lookup_insert_eq by lia. reflexivity.
Qed.

Lemma mr_get_set_other mr mr' value :
  0 <= mr <= 120 -> 0 <= mr' <= 120 -> mr <> mr' ->
  fst (sel4cp_mr_get mr' (sel4cp_mr_set mr value s)) =
  fst (sel4cp_mr_get mr' s).
Proof.
  intros Hmr Hmr' Hne. unfold sel4cp_mr_get, sel4cp_mr_set.
  destruct (Z.ltb_spec 120 mr); [lia|].
  destruct (Z.ltb_spec 120 mr'); [lia|].
  cbn [fst sim_msg_register set_sim_msg_register].
  rewrite list_lookup_insert_ne by lia. reflexivity.
Qed.

(** Out of range: the write is dropped and the read gives 0, each with a
    diagnostic. *)
Lemma mr_out_of_range mr value :
  120 < mr ->
  sim_msg_register (sel4cp_mr_set mr value s) = sim_msg_register s /\
  fst (sel4cp_mr_get mr s) = 0 /\
  dbg_out (sel4cp_mr_set mr value s) <> dbg_out s.
Proof.
  intros Hmr. unfold sel4cp_mr_get, sel4cp_mr_set.
  destruct (Z.ltb_spec 120 mr); [|lia].
  repeat split. unfold sel4cp_dbg_puts. cbn [dbg_out set_dbg_out].
  intros Heq. apply (f_equal (@length _)) in Heq.
  rewrite length_app in Heq. cbn [length] in Heq. lia.
Qed.

End RegisterFile.

(* ===================================================================== *)
(** ** The scenario stage only moves forward *)
(* ===================================================================== *)

Section StageOrder.

Lemma sim_stage_countdown s : sim_stage (countdown s) = sim_stage s.
Proof. unfold countdown. destruct (1 <? sim_irq_delay s); reflexivity. Qed.

Lemma sim_stage_fire_irq s : sim_stage (fire_irq s) = sim_stage s.
Proof. unfold fire_irq. destruct (sim_irq_delay s =? 1); reflexivity. Qed.

Lemma sim_stage_unmask_if_acked r s :
  sim_stage (unmask_if_acked r s) = sim_stage s.
Proof.
  unfold unmask_if_acked.
  destruct (sim_irq_delay s =? 0); [|reflexivity].
  destruct (negb _); reflexivity.
Qed.

Lemma stage0_mono s : sim_stage s <= sim_stage (stage0 s).
Proof.
  unfold stage0. destruct (Z.eqb_spec (sim_stage s) 0); cbn; lia.
Qed.

Lemma stage1_mono s : sim_stage s <= sim_stage (stage1 s).
Proof.
  unfold stage1. destruct (Z.eqb_spec (sim_stage s) 1); [|lia].
  destruct (sim_reply_label s =? 1); cbn; lia.
Qed.

Lemma stage2_mono s : sim_stage s <= sim_stage (stage2 s).
Proof.
  unfold stage2. destruct (Z.eqb_spec (sim_stage s) 2) as [E|]; [|lia].
  cbv zeta. destruct (_ <? 2); cbn [sim_stage set_sim_stage];
    rewrite ?sim_stage_unmask_if_acked, ?sim_stage_fire_irq,
      ?sim_stage_countdown; lia.
Qed.

Lemma stage3_mono s : sim_stage s <= sim_stage (stage3 s).
Proof.
  unfold stage3. destruct (Z.eqb_spec (sim_stage s) 3); [|lia].
  destruct (negb _); cbn; lia.
Qed.

Lemma stage4_mono s : sim_stage s <= sim_stage (stage4 s).
Proof.
  unfold stage4. destruct (Z.eqb_spec (sim_stage s) 4); [|lia].
  cbv zeta. destruct (_ =? 1); cbn; lia.
Qed.

Lemma stage5_mono s : sim_stage s <= sim_stage (stage5 s).
Proof.
  unfold stage5. destruct (Z.eqb_spec (sim_stage s) 5) as [E|]; [|lia].
  cbv zeta.
  set (s1 := countdown (set_debug 0 s)).
  assert (H1 : sim_stage s1 = 5)
    by (unfold s1; rewrite sim_stage_countdown; exact E).
  set (s2 := if sim_irq_delay s1 =? 100 then _ else s1).
  assert (H2 : sim_stage s2 = 5)
    by (unfold s2; destruct (sim_irq_delay s1 =? 100); exact H1).
  destruct (_ <? 2); cbn [sim_stage set_sim_stage];
    rewrite ?sim_stage_unmask_if_acked, ?sim_stage_fire_irq; lia.
Qed.

Lemma scenario_mono s : sim_stage s <= sim_stage (scenario s).
Proof.
  unfold scenario.
  pose proof (stage0_mono s).
  pose proof (stage1_mono (stage0 s)).
  pose proof (stage2_mono (stage1 (stage0 s))).
  pose proof (stage3_mono (stage2 (stage1 (stage0 s)))).
  pose proof (stage4_mono (stage3 (stage2 (stage1 (stage0 s))))).
  pose proof (stage5_mono (stage4 (stage3 (stage2 (stage1 (stage0 s)))))).
  lia.
Qed.

Lemma simulate_mono s : sim_stage s <= sim_stage (snd (simulate s)).
Proof.
  unfold simulate. destruct (_ =? SIM_CALLTYPE_PPCALL); cbn [snd].
  - lia.
  - apply scenario_mono.
Qed.

(** What [simulate] returns is the empty envelope, in every stage. *)
Lemma simulate_response s : fst (simulate s) = sel4cp_msginfo_new 0 0.
Proof. unfold simulate. destruct (_ =? SIM_CALLTYPE_PPCALL); reflexivity. Qed.

Lemma simulate_eta s : simulate s = (sel4cp_msginfo_new 0 0, snd (simulate s)).
Proof. rewrite <- (simulate_response s). destruct (simulate s); reflexivity. Qed.

Lemma sel4cp_ppcall_state ch msginfo s :
  snd (sel4cp_ppcall ch msginfo s) =
  set_sim_reply_label (sel4cp_msginfo_get_label msginfo)
    (set_sim_calltype SIM_CALLTYPE_PPCALL
      (set_sim_ppcalled ch
        (set_sim_tick (u64 (sim_tick s + 1))
          (if SEL4CP_MAX_CHANNELS <? ch
           then sel4cp_dbg_puts ("[MOCK] sel4cp_ppcall: ch too large" ++ nl) s
           else s)))).
Proof.
  unfold sel4cp_ppcall. destruct (SEL4CP_MAX_CHANNELS <? ch); reflexivity.
Qed.

Lemma sel4cp_ppcall_stage ch msginfo s :
  sim_stage (snd (sel4cp_ppcall ch msginfo s)) = sim_stage s.
Proof.
  rewrite sel4cp_ppcall_state. cbn. destruct (_ <? ch); reflexivity.
Qed.

Lemma seL4_Recv_eq src s :
  seL4_Recv src s =
  (sel4cp_msginfo_new 0 0,
   sim_return_badge (scenario (recv_entry s)),
   clear_flags (scenario (recv_entry s))).
Proof. reflexivity. Qed.

Lemma seL4_ReplyRecv_eq src reply_tag s :
  seL4_ReplyRecv src reply_tag s =
  (sel4cp_msginfo_new 0 0,
   sim_return_badge (scenario (replyrecv_entry reply_tag s)),
   clear_flags (scenario (replyrecv_entry reply_tag s))).
Proof. reflexivity. Qed.

Lemma sim_stage_clear_flags s : sim_stage (clear_flags s) = sim_stage s.
Proof. reflexivity. Qed.

Lemma sim_stage_recv_entry s : sim_stage (recv_entry s) = sim_stage s.
Proof. reflexivity. Qed.

Lemma sim_stage_replyrecv_entry tag s :
  sim_stage (replyrecv_entry tag s) = sim_stage s.
Proof. reflexivity. Qed.

Lemma wait_step_stage_mono c s :
  sim_stage s <= sim_stage (snd (wait_step c s)).
Proof.
  destruct c as [src|src tag]; cbn [wait_step].
  - rewrite seL4_Recv_eq. cbn [snd]. rewrite sim_stage_clear_flags.
    rewrite <- (sim_stage_recv_entry s) at 1. apply scenario_mono.
  - rewrite seL4_ReplyRecv_eq. cbn [snd]. rewrite sim_stage_clear_flags.
    rewrite <- (sim_stage_replyrecv_entry tag s) at 1. apply scenario_mono.
Qed.

Lemma api_exec_stage_mono c s s' :
  api_exec c s = Some s' -> sim_stage s <= sim_stage s'.
Proof.
  destruct c as [ch|ch|mr v|mr|ch m|w]; cbn [api_exec].
  - unfold sel4cp_notify. destruct (_ <? ch); [|destruct (shl_int 1 ch)];
      intros [= Heq]; subst s'; cbn; lia.
  - unfold sel4cp_irq_ack. destruct (_ <? ch); [|destruct (shl_int 1 ch)];
      intros [= Heq]; subst s'; cbn; lia.
  - intros [= Heq]; subst s'.
    unfold sel4cp_mr_set. destruct (120 <? mr); cbn; lia.
  - intros [= Heq]; subst s'.
    unfold sel4cp_mr_get. destruct (120 <? mr); cbn; lia.
  - intros Heq.
    assert (s' = snd (sel4cp_ppcall ch m s)) as -> by congruence.
    rewrite sel4cp_ppcall_stage. lia.
  - intros Heq. assert (s' = snd (wait_step w s)) as -> by congruence.
    apply wait_step_stage_mono.
Qed.

End StageOrder.

(** C9. One invocation of the scenario engine never lowers the stage, from
    any state whatever (reachable ones included); hence no entry point of the
    simulator does, and the stage of a state reached from [s] by any sequence
    of calls is at least the stage of [s]. *)
Theorem stage_never_rewound (s : sim_state) :
  sim_stage s <= sim_stage (snd (simulate s)) /\
  (forall c s', api_exec c s = Some s' -> sim_stage s <= sim_stage s') /\
  (forall s', reachable_from s s' -> sim_stage s <= sim_stage s').
Proof.
  split; [apply simulate_mono|].
  split; [intros c s' Hc; exact (api_exec_stage_mono c s s' Hc)|].
  induction 1 as [|s1 c s2 _ IH Hstep].
  - lia.
  - apply api_exec_stage_mono in Hstep. lia.
Qed.

(* ===================================================================== *)
(** ** Protected calls *)
(* ===================================================================== *)

Section ProtectedCall.

Variables (ch : sel4cp_channel) (s : sim_state).

Lemma sel4cp_ppcall_response msginfo :
  fst (sel4cp_ppcall ch msginfo s) = sel4cp_msginfo_new 0 0.
Proof.
  unfold sel4cp_ppcall. destruct (SEL4CP_MAX_CHANNELS <? ch); reflexivity.
Qed.

Lemma sel4cp_ppcall_eta msginfo :
  sel4cp_ppcall ch msginfo s =
  (sel4cp_msginfo_new 0 0, snd (sel4cp_ppcall ch msginfo s)).
Proof.
  rewrite <- (sel4cp_ppcall_response msginfo).
  destruct (sel4cp_ppcall ch msginfo s); reflexivity.
Qed.

(** The call record left by [sel4cp_ppcall]: kind, channel, request label. *)
Lemma sel4cp_ppcall_record msginfo :
  let s' := snd (sel4cp_ppcall ch msginfo s) in
  sim_calltype s' = SIM_CALLTYPE_PPCALL /\
  sim_ppcalled s' = ch /\
  sim_reply_label s' = sel4cp_msginfo_get_label msginfo /\
  sim_tick s' = u64 (sim_tick s + 1).
Proof.
  cbv zeta. rewrite sel4cp_ppcall_state.
  destruct (SEL4CP_MAX_CHANNELS <? ch); repeat split.
Qed.

(** What [mantle_ppcall] returns and what it leaves in [mantle_ret_count]:
    the label of the response, and the length of the request. *)
Lemma mantle_ppcall_eq label count :
  mantle_ppcall ch label count s =
  (0,
   set_mantle_ret_count
     (u16 (seL4_MessageInfo_get_length (sel4cp_msginfo_new label count)))
     (snd (sel4cp_ppcall ch (sel4cp_msginfo_new label count) s))).
Proof.
  unfold mantle_ppcall. cbv zeta.
  rewrite (sel4cp_ppcall_eta (sel4cp_msginfo_new label count)).
  reflexivity.
Qed.

Lemma mantle_ppcall_ret_count label count :
  mantle_get_ret_count (snd (mantle_ppcall ch label count s)) =
  Z.land count 0x7f.
Proof.
  rewrite mantle_ppcall_eq. cbn [snd].
  unfold mantle_get_ret_count. cbn [mantle_ret_count set_mantle_ret_count].
  unfold sel4cp_msginfo_new. rewrite get_length_new.
  change 0x7f with (Z.ones 7).
  pose proof (land_ones_bounds count 7 ltac:(lia)) as Hb.
  unfold u16. apply Z.mod_small. lia.
Qed.

End ProtectedCall.

(** C3, at an input where it fails.  [mantle_ppcall] does return the label
    of the engine's response and does leave the call record (kind, channel,
    request label); but the count it stores for [mantle_get_ret_count] is the
    length of the request it built, not the length of the response: a request
    of length 3 leaves 3 there although the response has length 0. *)
Theorem mantle_ppcall_ret_count_is_request_length :
  let response := fst (sel4cp_ppcall 1 sample_request initial_state) in
  let '(label, s') := mantle_ppcall 1 7 3 initial_state in
  label = seL4_MessageInfo_get_label response /\
  sim_calltype s' = SIM_CALLTYPE_PPCALL /\
  sim_ppcalled s' = 1 /\
  sim_reply_label s' = 7 /\
  seL4_MessageInfo_get_length response = 0 /\
  mantle_get_ret_count s' = 3.
Proof. vm_compute. repeat split. Qed.

(** C4. A protected call issued while the call record already says
    [ProtectedCall] gets the empty envelope, label 0 and length 0, whatever
    the stage and the rest of the state, and the stage is left as it was. *)
Theorem ppcall_while_outstanding_empty
    (ch : sel4cp_channel) (msginfo : sel4cp_msginfo) (s : sim_state) :
  sim_calltype s = SIM_CALLTYPE_PPCALL ->
  empty_response (fst (sel4cp_ppcall ch msginfo s)) /\
  sim_stage (snd (sel4cp_ppcall ch msginfo s)) = sim_stage s /\
  fst (mantle_ppcall ch (seL4_MessageInfo_get_label msginfo)
         (seL4_MessageInfo_get_length msginfo) s) = 0.
Proof.
  intros _. rewrite sel4cp_ppcall_response, sel4cp_ppcall_stage.
  rewrite mantle_ppcall_eq.
  split; [apply empty_response_new|]. split; reflexivity.
Qed.

Lemma ppcall_while_outstanding_empty_witness :
  empty_response
    (fst (sel4cp_ppcall 1 sample_request ppcall_outstanding_state)) /\
  sim_stage (snd (sel4cp_ppcall 1 sample_request ppcall_outstanding_state))
    = sim_stage ppcall_outstanding_state /\
  fst (mantle_ppcall 1 (seL4_MessageInfo_get_label sample_request)
         (seL4_MessageInfo_get_length sample_request)
         ppcall_outstanding_state) = 0.
Proof.
  apply (ppcall_while_outstanding_empty 1 sample_request
           ppcall_outstanding_state).
  reflexivity.
Defined.

(** C10. Every protected call gets the empty envelope, because
    [sel4cp_ppcall] itself writes [ProtectedCall] into the call record before
    it calls [simulate], which then returns at once: the scenario is not run,
    so stage, timer, digit counter and badge are what they were. *)
Theorem every_ppcall_short_circuits
    (ch : sel4cp_channel) (msginfo : sel4cp_msginfo) (s : sim_state) :
  let '(response, s') := sel4cp_ppcall ch msginfo s in
  empty_response response /\
  sim_calltype s' = SIM_CALLTYPE_PPCALL /\
  simulate s' = (sel4cp_msginfo_new 0 0, s') /\
  sim_stage s' = sim_stage s /\
  sim_irq_delay s' = sim_irq_delay s /\
  sim_next_digit s' = sim_next_digit s /\
  sim_return_badge s' = sim_return_badge s.
Proof.
  rewrite sel4cp_ppcall_eta, sel4cp_ppcall_state.
  split; [apply empty_response_new|].
  destruct (SEL4CP_MAX_CHANNELS <? ch); repeat split.
Qed.

(* ===================================================================== *)
(** ** Receive-style calls *)
(* ===================================================================== *)

Section WaitCalls.

Lemma wait_step_eq c s :
  wait_step c s = (sel4cp_msginfo_new 0 0, wait_badge c s, wait_state c s).
Proof.
  destruct c as [src|src tag]; unfold wait_badge, wait_state;
    cbn [wait_step wait_entry].
  - apply seL4_Recv_eq.
  - apply seL4_ReplyRecv_eq.
Qed.

Lemma wait_entry_fields c s :
  sim_stage (wait_entry c s) = sim_stage s /\
  sim_irq_delay (wait_entry c s) = sim_irq_delay s /\
  sim_next_digit (wait_entry c s) = sim_next_digit s /\
  sim_irq_acked (wait_entry c s) = sim_irq_acked s /\
  sim_notified (wait_entry c s) = sim_notified s /\
  sim_pinpad_input (wait_entry c s) = sim_pinpad_input s /\
  sim_return_badge (wait_entry c s) = 0 /\
  sim_calltype (wait_entry c s) <> SIM_CALLTYPE_PPCALL.
Proof. destruct c; repeat split; discriminate. Qed.

Lemma run_waits_cons c cs s :
  run_waits (c :: cs) s =
  (wait_badge c s :: fst (run_waits cs (wait_state c s)),
   snd (run_waits cs (wait_state c s))).
Proof.
  cbn [run_waits]. rewrite wait_step_eq.
  destruct (run_waits cs (wait_state c s)); reflexivity.
Qed.

Lemma run_waits_app cs1 cs2 s :
  run_waits (cs1 ++ cs2) s =
  (fst (run_waits cs1 s) ++ fst (run_waits cs2 (snd (run_waits cs1 s))),
   snd (run_waits cs2 (snd (run_waits cs1 s)))).
Proof.
  revert s. induction cs1 as [|c cs1 IH]; intros s.
  - cbn [app run_waits fst snd]. destruct (run_waits cs2 s); reflexivity.
  - rewrite <- app_comm_cons, !run_waits_cons, IH. reflexivity.
Qed.

End WaitCalls.

(* ===================================================================== *)
(** ** The scenario, stage by stage *)
(* ===================================================================== *)

Section Stages.

Variable s : sim_state.

Lemma stage0_skip : sim_stage s <> 0 -> stage0 s = s.
Proof.
  intros H. unfold stage0.
  destruct (Z.eqb_spec (sim_stage s) 0); [contradiction|reflexivity].
Qed.

Lemma stage1_skip : sim_stage s <> 1 -> stage1 s = s.
Proof.
  intros H. unfold stage1.
  destruct (Z.eqb_spec (sim_stage s) 1); [contradiction|reflexivity].
Qed.

Lemma stage2_skip : sim_stage s <> 2 -> stage2 s = s.
Proof.
  intros H. unfold stage2.
  destruct (Z.eqb_spec (sim_stage s) 2); [contradiction|reflexivity].
Qed.

Lemma stage3_skip : sim_stage s <> 3 -> stage3 s = s.
Proof.
  intros H. unfold stage3.
  destruct (Z.eqb_spec (sim_stage s) 3); [contradiction|reflexivity].
Qed.

Lemma stage4_skip : sim_stage s <> 4 -> stage4 s = s.
Proof.
  intros H. unfold stage4.
  destruct (Z.eqb_spec (sim_stage s) 4); [contradiction|reflexivity].
Qed.

Lemma stage5_skip : sim_stage s <> 5 -> stage5 s = s.
Proof.
  intros H. unfold stage5.
  destruct (Z.eqb_spec (sim_stage s) 5); [contradiction|reflexivity].
Qed.

(** From the terminal stage on, the scenario does nothing. *)
Lemma scenario_past_script : 5 < sim_stage s -> scenario s = s.
Proof.
  intros H. unfold scenario.
  rewrite stage0_skip by lia. rewrite stage1_skip by lia.
  rewrite stage2_skip by lia. rewrite stage3_skip by lia.
  rewrite stage4_skip by lia. apply stage5_skip. lia.
Qed.

Lemma u64_small x : 0 <= x < 2 ^ 64 -> u64 x = x.
Proof. apply Z.mod_small. Qed.

(** The three steps of a PIN entry stage. *)
Lemma countdown_gt :
  1 < sim_irq_delay s < 2 ^ 64 ->
  countdown s = set_sim_irq_delay (sim_irq_delay s - 1) s.
Proof.
  intros H. unfold countdown.
  destruct (Z.ltb_spec 1 (sim_irq_delay s)); [|lia].
  rewrite u64_small by lia. reflexivity.
Qed.

Lemma countdown_le : sim_irq_delay s <= 1 -> countdown s = s.
Proof.
  intros H. unfold countdown.
  destruct (Z.ltb_spec 1 (sim_irq_delay s)); [lia|reflexivity].
Qed.

Lemma fire_irq_at : sim_irq_delay s = 1 -> fire_irq s = irq_fired s.
Proof. intros H. unfold fire_irq. rewrite H. reflexivity. Qed.

Lemma fire_irq_skip : sim_irq_delay s <> 1 -> fire_irq s = s.
Proof.
  intros H. unfold fire_irq.
  destruct (Z.eqb_spec (sim_irq_delay s) 1); [contradiction|reflexivity].
Qed.

Lemma unmask_skip r : sim_irq_delay s <> 0 -> unmask_if_acked r s = s.
Proof.
  intros H. unfold unmask_if_acked.
  destruct (Z.eqb_spec (sim_irq_delay s) 0); [contradiction|reflexivity].
Qed.

Lemma unmask_masked r :
  Z.land (sim_irq_acked s) 1 = 0 -> unmask_if_acked r s = s.
Proof.
  intros H. unfold unmask_if_acked. rewrite H.
  destruct (sim_irq_delay s =? 0); reflexivity.
Qed.

Lemma unmask_acked r :
  sim_irq_delay s = 0 -> Z.land (sim_irq_acked s) 1 <> 0 ->
  unmask_if_acked r s =
  set_sim_irq_delay r (set_sim_next_digit (u64 (sim_next_digit s - 1)) s).
Proof.
  intros Hd Ha. unfold unmask_if_acked. rewrite Hd.
  destruct (Z.eqb_spec (Z.land (sim_irq_acked s) 1) 0); [contradiction|].
  reflexivity.
Qed.

End Stages.

(* ===================================================================== *)
(** ** PIN entry: the countdown *)
(* ===================================================================== *)

Section PinEntry.

Ltac fields :=
  cbn [sim_calltype sim_tick sim_notified sim_irq_acked sim_ppcalled
       sim_reply_label sim_msg_register sim_return_badge debug
       sim_pinpad_input sim_stage sim_irq_delay sim_next_digit
       mantle_ret_count mantle_ret_badge dbg_out
       set_sim_calltype set_sim_tick set_sim_notified set_sim_irq_acked
       set_sim_ppcalled set_sim_reply_label set_sim_msg_register
       set_sim_return_badge set_debug set_sim_pinpad_input set_sim_stage
       set_sim_irq_delay set_sim_next_digit set_mantle_ret_count
       set_mantle_ret_badge set_dbg_out] in *.

Ltac side := fields; first [lia | assumption | congruence].

(** *** Stage 2 *)

Lemma stage2_body s :
  sim_stage s = 2 ->
  stage2 s =
  let s3 := unmask_if_acked 5000000 (fire_irq (countdown s)) in
  if sim_next_digit s3 <? 2 then set_sim_stage 3 s3 else s3.
Proof. intros H. unfold stage2. rewrite H. reflexivity. Qed.

Lemma stage5_body s :
  sim_stage s = 5 ->
  stage5 s =
  let s1 := countdown (set_debug 0 s) in
  let s2 :=
    if sim_irq_delay s1 =? 100
    then set_sim_return_badge (Z.lor PPCALL_BADGE 1) s1 else s1 in
  let s3 := unmask_if_acked 7500000 (fire_irq s2) in
  if sim_next_digit s3 <? 2 then set_sim_stage 6 s3 else s3.
Proof. intros H. unfold stage5. rewrite H. reflexivity. Qed.

Lemma scenario_stage2 s :
  sim_stage s = 2 -> scenario s = stage5 (stage4 (stage3 (stage2 s))).
Proof.
  intros H. unfold scenario.
  rewrite (stage0_skip s) by lia. rewrite (stage1_skip s) by lia.
  reflexivity.
Qed.

Lemma scenario_stage5 s : sim_stage s = 5 -> scenario s = stage5 s.
Proof.
  intros H. unfold scenario.
  rewrite (stage0_skip s) by lia. rewrite (stage1_skip s) by lia.
  rewrite (stage2_skip s) by lia. rewrite (stage3_skip s) by lia.
  rewrite (stage4_skip s) by lia. reflexivity.
Qed.

Lemma stages_after_2 s :
  sim_stage s = 2 -> stage5 (stage4 (stage3 s)) = s.
Proof.
  intros H. rewrite (stage3_skip s) by lia. rewrite (stage4_skip s) by lia.
  apply stage5_skip. lia.
Qed.

(** Counting: the timer is above 2 on entry. *)
Lemma scenario_counting_2 s :
  sim_stage s = 2 -> 2 < sim_irq_delay s < 2 ^ 64 -> 2 <= sim_next_digit s ->
  scenario s = set_sim_irq_delay (sim_irq_delay s - 1) s.
Proof.
  intros Hst Hd Hn. rewrite scenario_stage2 by assumption.
  assert (E : stage2 s = set_sim_irq_delay (sim_irq_delay s - 1) s).
  { rewrite stage2_body by assumption. cbv zeta.
    rewrite countdown_gt by lia.
    rewrite fire_irq_skip by side. rewrite unmask_skip by side.
    fields. destruct (Z.ltb_spec (sim_next_digit s) 2); [lia|reflexivity]. }
  rewrite E. apply stages_after_2. exact Hst.
Qed.

Lemma scenario_counting_5 s :
  sim_stage s = 5 -> 2 < sim_irq_delay s < 2 ^ 64 -> 2 <= sim_next_digit s ->
  scenario s =
  let s1 := set_sim_irq_delay (sim_irq_delay s - 1) (set_debug 0 s) in
  if sim_irq_delay s - 1 =? 100
  then set_sim_return_badge (Z.lor PPCALL_BADGE 1) s1 else s1.
Proof.
  intros Hst Hd Hn. rewrite scenario_stage5, stage5_body by assumption.
  cbv zeta. rewrite countdown_gt by side. fields.
  destruct (sim_irq_delay s - 1 =? 100);
    rewrite fire_irq_skip by side; rewrite unmask_skip by side; fields;
    (destruct (Z.ltb_spec (sim_next_digit s) 2); [lia|reflexivity]).
Qed.

(** Firing: the timer is 2 on entry and no acknowledgement is pending. *)
Lemma scenario_fire_2 s :
  sim_stage s = 2 -> sim_irq_delay s = 2 -> 2 <= sim_next_digit s ->
  Z.land (sim_irq_acked s) 1 = 0 ->
  scenario s = irq_fired s.
Proof.
  intros Hst Hd Hn Ha. rewrite scenario_stage2 by assumption.
  assert (E : stage2 s = irq_fired s).
  { rewrite stage2_body by assumption. cbv zeta.
    rewrite countdown_gt by lia. rewrite fire_irq_at by side.
    rewrite unmask_masked by side. unfold irq_fired. fields.
    destruct (Z.ltb_spec (sim_next_digit s) 2); [lia|reflexivity]. }
  rewrite E. apply stages_after_2. exact Hst.
Qed.

Lemma scenario_fire_5 s :
  sim_stage s = 5 -> sim_irq_delay s = 2 -> 2 <= sim_next_digit s ->
  Z.land (sim_irq_acked s) 1 = 0 ->
  scenario s = irq_fired (set_debug 0 s).
Proof.
  intros Hst Hd Hn Ha. rewrite scenario_stage5, stage5_body by assumption.
  cbv zeta. rewrite countdown_gt by side. fields. rewrite Hd.
  change (2 - 1 =? 100) with false. cbv iota.
  rewrite fire_irq_at by side.
  rewrite unmask_masked by side. unfold irq_fired. fields.
  destruct (Z.ltb_spec (sim_next_digit s) 2); [lia|reflexivity].
Qed.

(** Masked: the timer is 0 and no acknowledgement is pending. *)
Lemma scenario_masked_2 s :
  sim_stage s = 2 -> sim_irq_delay s = 0 -> 2 <= sim_next_digit s ->
  Z.land (sim_irq_acked s) 1 = 0 ->
  scenario s = s.
Proof.
  intros Hst Hd Hn Ha. rewrite scenario_stage2 by assumption.
  assert (E : stage2 s = s).
  { rewrite stage2_body by assumption. cbv zeta.
    rewrite countdown_le by lia. rewrite fire_irq_skip by lia.
    rewrite unmask_masked by assumption.
    destruct (Z.ltb_spec (sim_next_digit s) 2); [lia|reflexivity]. }
  rewrite E. apply stages_after_2. exact Hst.
Qed.

Lemma scenario_masked_5 s :
  sim_stage s = 5 -> sim_irq_delay s = 0 -> 2 <= sim_next_digit s ->
  Z.land (sim_irq_acked s) 1 = 0 ->
  scenario s = set_debug 0 s.
Proof.
  intros Hst Hd Hn Ha. rewrite scenario_stage5, stage5_body by assumption.
  cbv zeta. rewrite countdown_le by side. fields. rewrite Hd.
  change (0 =? 100) with false. cbv iota. rewrite fire_irq_skip by side.
  rewrite unmask_masked by side. fields.
  destruct (Z.ltb_spec (sim_next_digit s) 2); [lia|reflexivity].
Qed.

(** Leaving stage 2: the two stages that may follow in the same call keep
    the timer and the digit counter. *)
Lemma stages_after_3 s :
  sim_stage s = 3 ->
  let s' := stage5 (stage4 (stage3 s)) in
  (sim_stage s' = 3 \/ sim_stage s' = 4) /\
  sim_irq_delay s' = sim_irq_delay s /\
  sim_next_digit s' = sim_next_digit s /\
  sim_pinpad_input s' = sim_pinpad_input s /\
  (sim_return_badge s' = sim_return_badge s \/
   sim_return_badge s' = Z.lor PPCALL_BADGE 2).
Proof.
  intros Hst. cbv zeta. unfold stage3. rewrite Hst.
  change (3 =? 3) with true. cbv iota.
  destruct (negb (Z.land (sim_notified s) 2 =? 0)).
  - cbv zeta. unfold stage4. fields.
    change (4 =? 4) with true. change (0 =? 1) with false. cbv iota zeta.
    rewrite stage5_skip by side. fields. auto 10.
  - rewrite (stage4_skip s) by lia. rewrite (stage5_skip s) by lia. auto 10.
Qed.

(** A PIN entry stage is left exactly when the digit counter is below 2
    after the call's own steps. *)
Lemma scenario_pin_exit s :
  pin_stage s ->
  (sim_stage (scenario s) = sim_stage s <-> 2 <= sim_next_digit (scenario s)).
Proof.
  intros [Hst|Hst].
  - rewrite scenario_stage2, stage2_body by assumption. cbv zeta.
    set (s3 := unmask_if_acked 5000000 (fire_irq (countdown s))).
    assert (H3 : sim_stage s3 = 2).
    { unfold s3. rewrite sim_stage_unmask_if_acked, sim_stage_fire_irq,
        sim_stage_countdown. exact Hst. }
    destruct (Z.ltb_spec (sim_next_digit s3) 2) as [Hlt|Hge].
    + destruct (stages_after_3 (set_sim_stage 3 s3)) as (Hs & _ & Hn & _);
        [reflexivity|].
      fields. lia.
    + rewrite stages_after_2 by assumption. lia.
  - rewrite scenario_stage5, stage5_body by assumption. cbv zeta.
    set (s1 := countdown (set_debug 0 s)).
    set (s2 := if sim_irq_delay s1 =? 100 then _ else s1).
    set (s3 := unmask_if_acked 7500000 (fire_irq s2)).
    assert (H3 : sim_stage s3 = 5).
    { unfold s3. rewrite sim_stage_unmask_if_acked, sim_stage_fire_irq.
      unfold s2. destruct (sim_irq_delay s1 =? 100); fields;
        unfold s1; rewrite sim_stage_countdown; exact Hst. }
    destruct (Z.ltb_spec (sim_next_digit s3) 2) as [Hlt|Hge]; fields; lia.
Qed.

(** Acknowledged: the timer is 0 and bit 0 of the acknowledged flags is
    set. *)
Lemma scenario_acked s :
  pin_stage s -> sim_irq_delay s = 0 -> Z.land (sim_irq_acked s) 1 <> 0 ->
  sim_irq_delay (scenario s) = reload_delay s /\
  sim_next_digit (scenario s) = u64 (sim_next_digit s - 1) /\
  sim_pinpad_input (scenario s) = sim_pinpad_input s /\
  (sim_return_badge (scenario s) = sim_return_badge s \/
   sim_return_badge (scenario s) = Z.lor PPCALL_BADGE 2).
Proof.
  intros [Hst|Hst] Hd Ha; unfold reload_delay; rewrite Hst.
  - change (2 =? 2) with true. cbv iota.
    rewrite scenario_stage2, stage2_body by assumption. cbv zeta.
    rewrite countdown_le by lia. rewrite fire_irq_skip by lia.
    rewrite unmask_acked by assumption. fields.
    set (s3 := set_sim_irq_delay _ _).
    destruct (u64 (sim_next_digit s - 1) <? 2).
    + destruct (stages_after_3 (set_sim_stage 3 s3))
        as (_ & Hdl & Hn & Hp & Hb); [reflexivity|].
      cbv zeta in Hdl, Hn, Hp, Hb. rewrite Hdl, Hn, Hp. unfold s3.
      fields. repeat split. exact Hb.
    + rewrite stages_after_2 by (unfold s3; side). unfold s3. fields.
      auto.
  - change (5 =? 2) with false. cbv iota.
    rewrite scenario_stage5, stage5_body by assumption. cbv zeta.
    rewrite countdown_le by side. fields. rewrite Hd.
    change (0 =? 100) with false. cbv iota.
    rewrite fire_irq_skip by side. rewrite unmask_acked by side. fields.
    destruct (u64 (sim_next_digit s - 1) <? 2); fields; auto.
Qed.

(** *** One receive-style call in a PIN entry stage *)

Lemma ppcall_badge_not_irq ch : Z.lor PPCALL_BADGE ch <> IRQ_BADGE.
Proof.
  intros H. apply (f_equal (fun b => Z.testbit b 63)) in H.
  rewrite Z.lor_spec in H. discriminate H.
Qed.

Lemma wait_counting c s :
  pin_stage s -> 2 < sim_irq_delay s < 2 ^ 64 -> 2 <= sim_next_digit s ->
  wait_badge c s <> IRQ_BADGE /\
  (sim_stage s = 2 -> wait_badge c s = 0) /\
  sim_stage (wait_state c s) = sim_stage s /\
  sim_irq_delay (wait_state c s) = sim_irq_delay s - 1 /\
  sim_next_digit (wait_state c s) = sim_next_digit s /\
  sim_pinpad_input (wait_state c s) = sim_pinpad_input s /\
  sim_irq_acked (wait_state c s) = 0.
Proof.
  intros Hpin Hd Hn. unfold wait_badge, wait_state.
  destruct (wait_entry_fields c s) as (Est & Ed & En & _ & _ & Ep & Eb & _).
  set (e := wait_entry c s) in *. unfold clear_flags. fields.
  destruct Hpin as [Hst|Hst].
  - rewrite scenario_counting_2 by lia. fields.
    unfold IRQ_BADGE. repeat split; lia.
  - rewrite scenario_counting_5 by lia. cbv zeta.
    destruct (sim_irq_delay e - 1 =? 100); fields;
      repeat split; try lia.
    + apply ppcall_badge_not_irq.
    + unfold IRQ_BADGE. lia.
Qed.

Lemma wait_fire c s :
  pin_stage s -> sim_irq_delay s = 2 -> 2 <= sim_next_digit s ->
  Z.land (sim_irq_acked s) 1 = 0 ->
  wait_badge c s = IRQ_BADGE /\
  sim_stage (wait_state c s) = sim_stage s /\
  sim_irq_delay (wait_state c s) = 0 /\
  sim_next_digit (wait_state c s) = sim_next_digit s /\
  sim_pinpad_input (wait_state c s) = u8 (sim_next_digit s) /\
  sim_irq_acked (wait_state c s) = 0.
Proof.
  intros Hpin Hd Hn Ha. unfold wait_badge, wait_state.
  destruct (wait_entry_fields c s) as (Est & Ed & En & Ea & _ & Ep & Eb & _).
  set (e := wait_entry c s) in *. unfold clear_flags. fields.
  destruct Hpin as [Hst|Hst].
  - rewrite scenario_fire_2 by congruence. unfold irq_fired. fields.
    rewrite En. repeat split; lia.
  - rewrite scenario_fire_5 by congruence. unfold irq_fired. fields.
    rewrite En. repeat split; lia.
Qed.

Lemma wait_masked c s :
  pin_stage s -> sim_irq_delay s = 0 -> 2 <= sim_next_digit s ->
  Z.land (sim_irq_acked s) 1 = 0 ->
  wait_badge c s = 0 /\
  sim_stage (wait_state c s) = sim_stage s /\
  sim_irq_delay (wait_state c s) = 0 /\
  sim_next_digit (wait_state c s) = sim_next_digit s /\
  sim_pinpad_input (wait_state c s) = sim_pinpad_input s /\
  sim_irq_acked (wait_state c s) = 0.
Proof.
  intros Hpin Hd Hn Ha. unfold wait_badge, wait_state.
  destruct (wait_entry_fields c s) as (Est & Ed & En & Ea & _ & Ep & Eb & _).
  set (e := wait_entry c s) in *. unfold clear_flags. fields.
  destruct Hpin as [Hst|Hst].
  - rewrite scenario_masked_2 by congruence. repeat split; lia.
  - rewrite scenario_masked_5 by congruence. fields. repeat split; lia.
Qed.

Lemma wait_acked c s :
  pin_stage s -> sim_irq_delay s = 0 -> Z.land (sim_irq_acked s) 1 <> 0 ->
  wait_badge c s <> IRQ_BADGE /\
  sim_irq_delay (wait_state c s) = reload_delay s /\
  sim_next_digit (wait_state c s) = u64 (sim_next_digit s - 1) /\
  sim_pinpad_input (wait_state c s) = sim_pinpad_input s /\
  sim_irq_acked (wait_state c s) = 0.
Proof.
  intros Hpin Hd Ha. unfold wait_badge, wait_state.
  destruct (wait_entry_fields c s) as (Est & Ed & En & Ea & _ & Ep & Eb & _).
  destruct (scenario_acked (wait_entry c s)) as (Hdl & Hn' & Hp & Hb).
  { unfold pin_stage in *. rewrite Est. exact Hpin. }
  { congruence. }
  { congruence. }
  unfold reload_delay in *. rewrite Est in Hdl.
  set (e := wait_entry c s) in *. unfold clear_flags. fields.
  repeat split; try congruence.
  destruct Hb as [Hb|Hb]; rewrite Hb.
  - rewrite Eb. discriminate.
  - apply ppcall_badge_not_irq.
Qed.

Lemma wait_pin_exit c s :
  pin_stage s ->
  (sim_stage (wait_state c s) = sim_stage s <->
   2 <= sim_next_digit (wait_state c s)).
Proof.
  intros Hpin. unfold wait_state.
  destruct (wait_entry_fields c s) as (Est & _).
  pose proof (scenario_pin_exit (wait_entry c s)) as H.
  unfold pin_stage in H. rewrite Est in H. specialize (H Hpin).
  unfold clear_flags. fields. exact H.
Qed.

End PinEntry.

(* ===================================================================== *)
(** ** PIN entry: sequences of calls *)
(* ===================================================================== *)

Section PinEntryRuns.

Lemma pin_stage_eq s s' : sim_stage s' = sim_stage s -> pin_stage s -> pin_stage s'.
Proof. unfold pin_stage. intros ->. auto. Qed.

(** While the timer stays above 2 on entry, calls only count down. *)
Lemma run_counting cs : forall s,
  pin_stage s ->
  Z.of_nat (length cs) <= sim_irq_delay s - 2 ->
  sim_irq_delay s < 2 ^ 64 ->
  2 <= sim_next_digit s ->
  Forall (fun b => b <> IRQ_BADGE) (fst (run_waits cs s)) /\
  (sim_stage s = 2 -> Forall (fun b => b = 0) (fst (run_waits cs s))) /\
  sim_stage (snd (run_waits cs s)) = sim_stage s /\
  sim_irq_delay (snd (run_waits cs s)) = sim_irq_delay s - Z.of_nat (length cs) /\
  sim_next_digit (snd (run_waits cs s)) = sim_next_digit s /\
  sim_pinpad_input (snd (run_waits cs s)) = sim_pinpad_input s /\
  (Z.land (sim_irq_acked s) 1 = 0 ->
   Z.land (sim_irq_acked (snd (run_waits cs s))) 1 = 0).
Proof.
  induction cs as [|c cs IH]; intros s Hpin Hlen Hd Hn.
  - cbn [run_waits fst snd length]. repeat split; auto. lia.
  - rewrite run_waits_cons. cbn [fst snd].
    cbn [length] in Hlen |- *. rewrite Nat2Z.inj_succ in Hlen |- *.
    destruct (wait_counting c s Hpin ltac:(lia) Hn)
      as (Hb & Hb0 & Hst & Hdl & Hdg & Hpp & Hak).
    destruct (IH (wait_state c s)) as (I1 & I2 & I3 & I4 & I5 & I6 & I7);
      try lia.
    { exact (pin_stage_eq _ _ Hst Hpin). }
    repeat split; try congruence; try lia.
    + constructor; assumption.
    + intros H2. constructor; [auto|]. apply I2. congruence.
    + intros _. apply I7. rewrite Hak. reflexivity.
Qed.

(** Once the IRQ has fired, calls without an acknowledgement change
    nothing. *)
Lemma run_masked cs : forall s,
  pin_stage s -> sim_irq_delay s = 0 -> 2 <= sim_next_digit s ->
  Z.land (sim_irq_acked s) 1 = 0 ->
  Forall (fun b => b = 0) (fst (run_waits cs s)) /\
  sim_stage (snd (run_waits cs s)) = sim_stage s /\
  sim_irq_delay (snd (run_waits cs s)) = 0 /\
  sim_next_digit (snd (run_waits cs s)) = sim_next_digit s /\
  sim_pinpad_input (snd (run_waits cs s)) = sim_pinpad_input s /\
  Z.land (sim_irq_acked (snd (run_waits cs s))) 1 = 0.
Proof.
  induction cs as [|c cs IH]; intros s Hpin Hd Hn Ha.
  - cbn [run_waits fst snd]. repeat split; auto.
  - rewrite run_waits_cons. cbn [fst snd].
    destruct (wait_masked c s Hpin Hd Hn Ha)
      as (Hb & Hst & Hdl & Hdg & Hpp & Hak).
    destruct (IH (wait_state c s)) as (I1 & I2 & I3 & I4 & I5 & I6);
      try congruence; try lia.
    { exact (pin_stage_eq _ _ Hst Hpin). }
    { rewrite Hak. reflexivity. }
    repeat split; try congruence.
    constructor; assumption.
Qed.

Lemma irq_ack_0_sets_bit s :
  exists s',
    sel4cp_irq_ack 0 s = Some s' /\
    s' = set_sim_irq_acked (sim_irq_acked s') s /\
    Z.land (sim_irq_acked s') 1 <> 0.
Proof.
  eexists. rewrite sel4cp_irq_ack_low by lia.
  split; [reflexivity|]. split; [reflexivity|].
  cbn [sim_irq_acked set_sim_irq_acked]. intros H.
  apply (f_equal (fun x => Z.testbit x 0)) in H.
  rewrite Z.land_spec, Z.lor_spec in H.
  change (Z.testbit (2 ^ 0) 0) with true in H.
  rewrite orb_true_r in H. discriminate H.
Qed.

End PinEntryRuns.

(** C1, as stated, fails: with the timer at [D = 2] on entry to stage 2 the
    very first call delivers the keypad IRQ, so two calls are not what it
    takes; the second call delivers nothing. *)
Lemma countdown_takes_D_calls_counterexample :
  pin_entry 2 (pin_entry_state 2) /\
  first_irq_on_call 1 [Recv 1] (pin_entry_state 2) /\
  ~ first_irq_on_call 2 [Recv 1; Recv 1] (pin_entry_state 2).
Proof.
  split; [|split].
  - unfold pin_entry, pin_stage. cbn. repeat split; auto; lia.
  - split; [reflexivity|]. exists []. split; [reflexivity|constructor].
  - intros (_ & badges & Hb & Hall).
    assert (E : fst (run_waits [Recv 1; Recv 1] (pin_entry_state 2)) = [1; 0])
      by (vm_compute; reflexivity).
    rewrite E in Hb. unfold IRQ_BADGE in *.
    destruct badges as [|b [|b' [|b'' badges]]]; cbn in Hb;
      discriminate Hb.
Qed.

(** C1, amended.  In a PIN entry stage (2 or 5) entered with the timer at
    [D > 1], digits left and no acknowledgement pending on channel 0:
    - the first [D - 2] receive-style calls deliver no keypad IRQ and leave
      the pinpad buffer alone, and call [D - 1] is the first to deliver it
      (badge 1, the digit written to the buffer);
    - from then on, calls made without an acknowledgement deliver nothing
      and change neither timer, digit counter, buffer nor stage;
    - after [irq_ack] on channel 0 the next call consumes the digit (counter
      minus one) and reloads the timer, and leaves the stage exactly if the
      counter has fallen below 2;
    - in general a call leaves a PIN entry stage exactly when the digit
      counter is below 2 after it. *)
Theorem pin_entry_countdown
    (D : Z) (s : sim_state) (cs : list wait_call) (c : wait_call)
    (cs' : list wait_call) (c' : wait_call) :
  pin_entry D s ->
  Z.of_nat (length cs) = D - 2 ->
  let (badges, s1) := run_waits cs s in
  let '(_, badge, s2) := wait_step c s1 in
  let (badges', s3) := run_waits cs' s2 in
  (Forall (fun b => b <> IRQ_BADGE) badges /\
   sim_pinpad_input s1 = sim_pinpad_input s) /\
  (badge = IRQ_BADGE /\
   sim_pinpad_input s2 = u8 (sim_next_digit s) /\
   first_irq_on_call (Z.to_nat (D - 1)) (cs ++ [c]) s) /\
  (Forall (fun b => b = 0) badges' /\
   sim_irq_delay s3 = 0 /\
   sim_next_digit s3 = sim_next_digit s /\
   sim_pinpad_input s3 = u8 (sim_next_digit s) /\
   sim_stage s3 = sim_stage s) /\
  (exists s4,
     sel4cp_irq_ack 0 s3 = Some s4 /\
     let '(_, badge5, s5) := wait_step c' s4 in
     badge5 <> IRQ_BADGE /\
     sim_next_digit s5 = sim_next_digit s - 1 /\
     sim_irq_delay s5 = reload_delay s /\
     (sim_stage s5 = sim_stage s <-> 2 <= sim_next_digit s - 1)) /\
  (forall t c0,
     pin_stage t ->
     let s' := snd (wait_step c0 t) in
     sim_stage s' = sim_stage t <-> 2 <= sim_next_digit s').
Proof.
  intros (Hpin & Hd & HD & Hn & Ha) Hlen.
  destruct (run_counting cs s Hpin ltac:(lia) ltac:(lia) ltac:(lia))
    as (C1 & _ & C3 & C4 & C5 & C6 & C7).
  specialize (C7 Ha).
  pose proof (run_waits_app cs [c] s) as Happ.
  destruct (run_waits cs s) as [badges s1]. cbn [fst snd] in *.
  assert (Hpin1 : pin_stage s1) by exact (pin_stage_eq _ _ C3 Hpin).
  rewrite run_waits_cons in Happ. cbn [run_waits fst snd] in Happ.
  rewrite wait_step_eq.
  destruct (wait_fire c s1 Hpin1 ltac:(lia) ltac:(lia) C7)
    as (F1 & F2 & F3 & F4 & F5 & F6).
  set (s2 := wait_state c s1) in *.
  assert (Hpin2 : pin_stage s2) by exact (pin_stage_eq _ _ F2 Hpin1).
  destruct (run_masked cs' s2 Hpin2 F3 ltac:(lia)
              ltac:(rewrite F6; reflexivity))
    as (M1 & M2 & M3 & M4 & M5 & M6).
  destruct (run_waits cs' s2) as [badges' s3]. cbn [fst snd] in *.
  assert (Hpin3 : pin_stage s3) by exact (pin_stage_eq _ _ M2 Hpin2).
  split; [|split; [|split; [|split]]].
  - split; [exact C1|exact C6].
  - split; [exact F1|]. split; [congruence|].
    split.
    + rewrite length_app. cbn [length]. lia.
    + exists badges. rewrite Happ, F1. split; [reflexivity|exact C1].
  - repeat split; congruence.
  - destruct (irq_ack_0_sets_bit s3) as (s4 & E4 & Hs4 & Hbit).
    exists s4. split; [exact E4|]. rewrite wait_step_eq.
    assert (Hst4 : sim_stage s4 = sim_stage s3) by (rewrite Hs4; reflexivity).
    assert (Hd4 : sim_irq_delay s4 = 0) by (rewrite Hs4; exact M3).
    assert (Hn4 : sim_next_digit s4 = sim_next_digit s3)
      by (rewrite Hs4; reflexivity).
    assert (Hpin4 : pin_stage s4) by exact (pin_stage_eq _ _ Hst4 Hpin3).
    destruct (wait_acked c' s4 Hpin4 Hd4 Hbit) as (A1 & A2 & A3 & _).
    pose proof (wait_pin_exit c' s4 Hpin4) as Hexit.
    assert (Hu : u64 (sim_next_digit s4 - 1) = sim_next_digit s - 1)
      by (rewrite u64_small; lia).
    assert (Hr : reload_delay s4 = reload_delay s)
      by (unfold reload_delay;
          replace (sim_stage s4) with (sim_stage s) by congruence;
          reflexivity).
    rewrite A3, Hu in *. repeat split; try congruence.
    + intros H. apply Hexit. congruence.
    + intros H. rewrite (proj2 Hexit H). congruence.
  - intros t c0 Hpt. rewrite wait_step_eq. cbn [snd].
    apply wait_pin_exit. exact Hpt.
Qed.

Lemma pin_entry_countdown_witness :
  let s := pin_entry_state 3 in
  let (badges, s1) := run_waits [Recv 1] s in
  let '(_, badge, s2) := wait_step (Recv 1) s1 in
  let (badges', s3) := run_waits opening_calls s2 in
  (Forall (fun b => b <> IRQ_BADGE) badges /\
   sim_pinpad_input s1 = sim_pinpad_input s) /\
  (badge = IRQ_BADGE /\
   sim_pinpad_input s2 = u8 (sim_next_digit s) /\
   first_irq_on_call (Z.to_nat (3 - 1)) ([Recv 1] ++ [Recv 1]) s) /\
  (Forall (fun b => b = 0) badges' /\
   sim_irq_delay s3 = 0 /\
   sim_next_digit s3 = sim_next_digit s /\
   sim_pinpad_input s3 = u8 (sim_next_digit s) /\
   sim_stage s3 = sim_stage s) /\
  (exists s4,
     sel4cp_irq_ack 0 s3 = Some s4 /\
     let '(_, badge5, s5) := wait_step (Recv 1) s4 in
     badge5 <> IRQ_BADGE /\
     sim_next_digit s5 = sim_next_digit s - 1 /\
     sim_irq_delay s5 = reload_delay s /\
     (sim_stage s5 = sim_stage s <-> 2 <= sim_next_digit s - 1)) /\
  (forall t c0,
     pin_stage t ->
     let s' := snd (wait_step c0 t) in
     sim_stage s' = sim_stage t <-> 2 <= sim_next_digit s').
Proof.
  apply (pin_entry_countdown 3 (pin_entry_state 3) [Recv 1] (Recv 1)
           opening_calls (Recv 1)).
  - unfold pin_entry, pin_stage. cbn. repeat split; auto; lia.
  - reflexivity.
Defined.

(** The scripted run itself reaches the first PIN entry stage: after the
    opening [recv] and a reply with label 1 the timer stands at 999999. *)
Lemma opening_reaches_pin_entry :
  pin_entry 999999 (snd (run_waits opening_calls initial_state)).
Proof.
  unfold pin_entry, pin_stage. vm_compute. repeat split; auto; discriminate.
Qed.

(* ===================================================================== *)
(** ** Receive-style calls: flags, first delivery, terminal stage *)
(* ===================================================================== *)

Lemma mantle_recv_eq s :
  mantle_recv s =
  (0, set_mantle_ret_count 0
        (set_mantle_ret_badge (wait_badge (Recv 1) s)
           (wait_state (Recv 1) s))).
Proof.
  unfold mantle_recv, wait_badge, wait_state. cbn [wait_entry].
  rewrite seL4_Recv_eq. reflexivity.
Qed.

Lemma mantle_replyrecv_eq label count s :
  mantle_replyrecv label count s =
  let c := ReplyRecv 1 (sel4cp_msginfo_new label count) in
  (0, set_mantle_ret_count 0
        (set_mantle_ret_badge (wait_badge c s) (wait_state c s))).
Proof.
  unfold mantle_replyrecv, wait_badge, wait_state. cbv zeta.
  cbn [wait_entry]. rewrite seL4_ReplyRecv_eq. reflexivity.
Qed.

(** C5. After [seL4_Recv] or [seL4_ReplyRecv] (and so after [mantle_recv]
    or [mantle_replyrecv]) the notified flags, the acknowledged flags and the
    pending-call channel are all 0, whatever they were before and whatever
    [simulate] did in between. *)
Theorem wait_clears_event_flags
    (c : wait_call) (label count : Z) (s : sim_state) :
  let cleared s' :=
    sim_notified s' = 0 /\ sim_irq_acked s' = 0 /\ sim_ppcalled s' = 0 in
  cleared (snd (wait_step c s)) /\
  cleared (snd (mantle_recv s)) /\
  cleared (snd (mantle_replyrecv label count s)).
Proof.
  cbv zeta. rewrite wait_step_eq, mantle_recv_eq, mantle_replyrecv_eq.
  cbv zeta. cbn [snd]. unfold wait_state. repeat split.
Qed.

(** C7. From the initial state (stage 0) the first [recv] delivers a badge
    with bit 63 set and with 1 in the remaining bits: a protected-call
    invitation on channel 1.  The stage is then 1. *)
Theorem first_recv_is_ppcall_invitation (src : Z) :
  let '(response, badge, s') := seL4_Recv src initial_state in
  Z.testbit badge 63 = true /\
  Z.land badge (Z.ones 63) = 1 /\
  badge = Z.lor PPCALL_BADGE 1 /\
  empty_response response /\
  sim_stage s' = 1 /\
  mantle_get_ret_badge (snd (mantle_recv initial_state)) = badge.
Proof. vm_compute. repeat split. Qed.

Section Terminal.

Variable s : sim_state.
Hypothesis Hterm : sim_stage s = TERMINAL_STAGE.

Lemma wait_terminal c :
  wait_badge c s = 0 /\ sim_stage (wait_state c s) = TERMINAL_STAGE.
Proof.
  unfold wait_badge, wait_state.
  destruct (wait_entry_fields c s) as (Est & _ & _ & _ & _ & _ & Eb & _).
  rewrite scenario_past_script
    by (rewrite Est, Hterm; unfold TERMINAL_STAGE; lia).
  split; [exact Eb|]. rewrite sim_stage_clear_flags. congruence.
Qed.

Lemma api_exec_terminal c s' :
  api_exec c s = Some s' -> sim_stage s' = TERMINAL_STAGE.
Proof.
  destruct c as [ch|ch|mr v|mr|ch m|w]; cbn [api_exec].
  - unfold sel4cp_notify. destruct (_ <? ch); [|destruct (shl_int 1 ch)];
      intros [= Heq]; subst s'; exact Hterm.
  - unfold sel4cp_irq_ack. destruct (_ <? ch); [|destruct (shl_int 1 ch)];
      intros [= Heq]; subst s'; exact Hterm.
  - intros [= Heq]; subst s'.
    unfold sel4cp_mr_set. destruct (120 <? mr); exact Hterm.
  - intros [= Heq]; subst s'.
    unfold sel4cp_mr_get. destruct (120 <? mr); exact Hterm.
  - intros Heq.
    assert (s' = snd (sel4cp_ppcall ch m s)) as -> by congruence.
    rewrite sel4cp_ppcall_stage. exact Hterm.
  - intros Heq. assert (s' = snd (wait_step w s)) as -> by congruence.
    rewrite wait_step_eq. cbn [snd]. apply wait_terminal.
Qed.

End Terminal.

Lemma reachable_terminal s s' :
  sim_stage s = TERMINAL_STAGE -> reachable_from s s' ->
  sim_stage s' = TERMINAL_STAGE.
Proof.
  intros Hterm Hreach. induction Hreach as [|s1 c s2 _ IH Hstep].
  - exact Hterm.
  - exact (api_exec_terminal s1 IH c s2 Hstep).
Qed.

(** C8. Once the stage is 6, it is 6 in every state reached by any further
    sequence of calls, and in each such state [recv], [reply_recv] and
    [protected_call] return the empty envelope (label 0, length 0), the
    receive-style calls with badge 0 and a zero return count. *)
Theorem terminal_stage_forever (s s' : sim_state) :
  sim_stage s = TERMINAL_STAGE ->
  reachable_from s s' ->
  sim_stage s' = TERMINAL_STAGE /\
  (forall c,
     let '(response, badge, s'') := wait_step c s' in
     empty_response response /\ badge = 0 /\
     sim_stage s'' = TERMINAL_STAGE) /\
  (forall ch msginfo,
     let '(response, s'') := sel4cp_ppcall ch msginfo s' in
     empty_response response /\ sim_stage s'' = TERMINAL_STAGE) /\
  (forall label count,
     fst (mantle_recv s') = 0 /\
     mantle_get_ret_count (snd (mantle_recv s')) = 0 /\
     fst (mantle_replyrecv label count s') = 0 /\
     mantle_get_ret_count (snd (mantle_replyrecv label count s')) = 0 /\
     fst (mantle_ppcall 0 label count s') = 0).
Proof.
  intros Hterm Hreach.
  pose proof (reachable_terminal s s' Hterm Hreach) as Hterm'.
  split; [exact Hterm'|]. split; [|split].
  - intros c. rewrite wait_step_eq.
    destruct (wait_terminal s' Hterm' c) as (Hb & Hst).
    split; [apply empty_response_new|]. split; assumption.
  - intros ch msginfo. rewrite sel4cp_ppcall_eta.
    split; [apply empty_response_new|].
    rewrite sel4cp_ppcall_stage. exact Hterm'.
  - intros label count.
    rewrite mantle_recv_eq, mantle_replyrecv_eq, mantle_ppcall_eq.
    repeat split.
Qed.

Lemma terminal_stage_forever_witness :
  sim_stage terminal_state = TERMINAL_STAGE /\
  (let '(response, badge, s'') := wait_step (Recv 1) terminal_state in
   empty_response response /\ badge = 0 /\ sim_stage s'' = TERMINAL_STAGE).
Proof.
  destruct (terminal_stage_forever terminal_state terminal_state)
    as (Hst & Hwait & _).
  - reflexivity.
  - apply reach_here.
  - split; [exact Hst|]. exact (Hwait (Recv 1)).
Defined.

Lemma stage_never_rewound_witness :
  sim_stage initial_state
    <= sim_stage (snd (wait_step (Recv 1) initial_state)).
Proof.
  destruct (stage_never_rewound initial_state) as (_ & Hcall & _).
  apply (Hcall (Wait (Recv 1))). reflexivity.
Defined.

(* ===================================================================== *)
(** ** Message encoding: the layout of the word *)
(* ===================================================================== *)

Section Layout.

Lemma lor_mul_pow2_low a b k :
  0 <= k -> 0 <= b < 2 ^ k -> Z.lor (a * 2 ^ k) b = a * 2 ^ k + b.
Proof.
  intros Hk Hb.
  assert (Hdisj : Z.land (a * 2 ^ k) b = 0).
  { apply Z.bits_inj'. intros i Hi.
    rewrite Z.land_spec, Z.bits_0.
    destruct (Z.lt_ge_cases i k) as [Hlt|Hge].
    - rewrite Z.mul_pow2_bits_low by lia. reflexivity.
    - rewrite <- (Z.mod_small b (2 ^ k)) by lia.
      rewrite Z.mod_pow2_bits_high by lia. apply andb_false_r. }
  rewrite <- Z.lxor_lor by exact Hdisj.
  symmetry. apply Z.add_nocarry_lxor. exact Hdisj.
Qed.

Lemma words0_layout label capsUnwrapped extraCaps length :
  words0 (seL4_MessageInfo_new label capsUnwrapped extraCaps length) =
  (label mod 2 ^ 52) * 2 ^ 12 + (capsUnwrapped mod 2 ^ 3) * 2 ^ 9
  + (extraCaps mod 2 ^ 2) * 2 ^ 7 + length mod 2 ^ 7.
Proof.
  rewrite words0_new. rewrite !Z.land_ones by lia.
  rewrite !Z.shiftl_mul_pow2 by lia.
  pose proof (Z.mod_pos_bound label (2 ^ 52) ltac:(lia)) as Hl.
  pose proof (Z.mod_pos_bound capsUnwrapped (2 ^ 3) ltac:(lia)) as Hc.
  pose proof (Z.mod_pos_bound extraCaps (2 ^ 2) ltac:(lia)) as He.
  pose proof (Z.mod_pos_bound length (2 ^ 7) ltac:(lia)) as Hn.
  set (L := label mod 2 ^ 52) in *. set (C := capsUnwrapped mod 2 ^ 3) in *.
  set (E := extraCaps mod 2 ^ 2) in *. set (N := length mod 2 ^ 7) in *.
  rewrite (lor_mul_pow2_low L (C * 2 ^ 9) 12) by lia.
  replace (L * 2 ^ 12 + C * 2 ^ 9) with ((L * 2 ^ 3 + C) * 2 ^ 9) by lia.
  rewrite (lor_mul_pow2_low _ (E * 2 ^ 7) 9) by lia.
  replace ((L * 2 ^ 3 + C) * 2 ^ 9 + E * 2 ^ 7)
    with (((L * 2 ^ 3 + C) * 2 ^ 2 + E) * 2 ^ 7) by lia.
  rewrite (lor_mul_pow2_low _ N 7) by lia. lia.
Qed.

End Layout.

(** The word built by [seL4_MessageInfo_new] is
    [label * 2^12 + capsUnwrapped * 2^9 + extraCaps * 2^7 + length] over the
    fields reduced to 52, 3, 2 and 7 bits: it always fits in 64 bits, and
    two words are equal exactly when the four reduced fields are, so no
    field leaks into another. *)
Theorem msginfo_word_layout
    (label capsUnwrapped extraCaps length : Z)
    (label' capsUnwrapped' extraCaps' length' : Z) :
  let m := seL4_MessageInfo_new label capsUnwrapped extraCaps length in
  let m' := seL4_MessageInfo_new label' capsUnwrapped' extraCaps' length' in
  words0 m =
    (label mod 2 ^ 52) * 2 ^ 12 + (capsUnwrapped mod 2 ^ 3) * 2 ^ 9
    + (extraCaps mod 2 ^ 2) * 2 ^ 7 + length mod 2 ^ 7 /\
  0 <= words0 m < 2 ^ 64 /\
  (m = m' <->
   label mod 2 ^ 52 = label' mod 2 ^ 52 /\
   capsUnwrapped mod 2 ^ 3 = capsUnwrapped' mod 2 ^ 3 /\
   extraCaps mod 2 ^ 2 = extraCaps' mod 2 ^ 2 /\
   length mod 2 ^ 7 = length' mod 2 ^ 7).
Proof.
  cbv zeta.
  pose proof (words0_layout label capsUnwrapped extraCaps length) as Hw.
  pose proof (words0_layout label' capsUnwrapped' extraCaps' length') as Hw'.
  pose proof (Z.mod_pos_bound label (2 ^ 52) ltac:(lia)) as Hl.
  pose proof (Z.mod_pos_bound capsUnwrapped (2 ^ 3) ltac:(lia)) as Hc.
  pose proof (Z.mod_pos_bound extraCaps (2 ^ 2) ltac:(lia)) as He.
  pose proof (Z.mod_pos_bound length (2 ^ 7) ltac:(lia)) as Hn.
  pose proof (Z.mod_pos_bound label' (2 ^ 52) ltac:(lia)) as Hl'.
  pose proof (Z.mod_pos_bound capsUnwrapped' (2 ^ 3) ltac:(lia)) as Hc'.
  pose proof (Z.mod_pos_bound extraCaps' (2 ^ 2) ltac:(lia)) as He'.
  pose proof (Z.mod_pos_bound length' (2 ^ 7) ltac:(lia)) as Hn'.
  split; [exact Hw|]. split; [lia|]. split.
  - intros Heq. apply (f_equal words0) in Heq. lia.
  - intros (E1 & E2 & E3 & E4).
    destruct (seL4_MessageInfo_new label capsUnwrapped extraCaps length)
      as [w].
    destruct (seL4_MessageInfo_new label' capsUnwrapped' extraCaps' length')
      as [w'].
    cbn [words0] in Hw, Hw'. f_equal. lia.
Qed.

(* ===================================================================== *)
(** ** What the scenario leaves alone *)
(* ===================================================================== *)

Section ScenarioFrame.

Lemma same_outside_refl s : same_outside_scenario s s.
Proof. repeat split. Qed.

Lemma same_outside_trans s1 s2 s3 :
  same_outside_scenario s1 s2 -> same_outside_scenario s2 s3 ->
  same_outside_scenario s1 s3.
Proof.
  unfold same_outside_scenario.
  intros (A1 & A2 & A3 & A4 & A5 & A6 & A7 & A8 & A9)
         (B1 & B2 & B3 & B4 & B5 & B6 & B7 & B8 & B9).
  repeat split; congruence.
Qed.

Lemma same_outside_countdown s : same_outside_scenario s (countdown s).
Proof. unfold countdown. destruct (1 <? _); repeat split. Qed.

Lemma same_outside_fire_irq s : same_outside_scenario s (fire_irq s).
Proof. unfold fire_irq. destruct (_ =? 1); repeat split. Qed.

Lemma same_outside_unmask r s :
  same_outside_scenario s (unmask_if_acked r s).
Proof.
  unfold unmask_if_acked. destruct (_ =? 0); [|apply same_outside_refl].
  destruct (negb _); repeat split.
Qed.

Lemma same_outside_stage0 s : same_outside_scenario s (stage0 s).
Proof. unfold stage0. destruct (_ =? 0); repeat split. Qed.

Lemma same_outside_stage1 s : same_outside_scenario s (stage1 s).
Proof.
  unfold stage1. destruct (_ =? 1); [|apply same_outside_refl].
  destruct (_ =? 1); repeat split.
Qed.

Lemma same_outside_stage2 s : same_outside_scenario s (stage2 s).
Proof.
  unfold stage2. destruct (sim_stage s =? 2); [|apply same_outside_refl].
  cbv zeta.
  set (s3 := unmask_if_acked 5000000 (fire_irq (countdown s))).
  assert (H3 : same_outside_scenario s s3).
  { unfold s3.
    eapply same_outside_trans; [apply same_outside_countdown|].
    eapply same_outside_trans; [apply same_outside_fire_irq|].
    apply same_outside_unmask. }
  destruct (_ <? 2); [|exact H3].
  eapply same_outside_trans; [exact H3|]. repeat split.
Qed.

Lemma same_outside_stage3 s : same_outside_scenario s (stage3 s).
Proof.
  unfold stage3. destruct (_ =? 3); [|apply same_outside_refl].
  destruct (negb _); repeat split.
Qed.

Lemma same_outside_stage4 s : same_outside_scenario s (stage4 s).
Proof.
  unfold stage4. destruct (_ =? 4); [|apply same_outside_refl].
  cbv zeta. destruct (_ =? 1); repeat split.
Qed.

Lemma same_outside_stage5 s : same_outside_scenario s (stage5 s).
Proof.
  unfold stage5. destruct (sim_stage s =? 5); [|apply same_outside_refl].
  cbv zeta.
  set (s1 := countdown (set_debug 0 s)).
  assert (H1 : same_outside_scenario s s1).
  { eapply same_outside_trans; [|apply same_outside_countdown].
    repeat split. }
  set (s2 := if sim_irq_delay s1 =? 100 then _ else s1).
  assert (H2 : same_outside_scenario s s2).
  { unfold s2. destruct (_ =? 100); [|exact H1].
    eapply same_outside_trans; [exact H1|]. repeat split. }
  set (s3 := unmask_if_acked 7500000 (fire_irq s2)).
  assert (H3 : same_outside_scenario s s3).
  { unfold s3.
    eapply same_outside_trans; [exact H2|].
    eapply same_outside_trans; [apply same_outside_fire_irq|].
    apply same_outside_unmask. }
  destruct (_ <? 2); [|exact H3].
  eapply same_outside_trans; [exact H3|]. repeat split.
Qed.

Lemma same_outside_scenario_run s : same_outside_scenario s (scenario s).
Proof.
  unfold scenario.
  eapply same_outside_trans; [apply same_outside_stage0|].
  eapply same_outside_trans; [apply same_outside_stage1|].
  eapply same_outside_trans; [apply same_outside_stage2|].
  eapply same_outside_trans; [apply same_outside_stage3|].
  eapply same_outside_trans; [apply same_outside_stage4|].
  apply same_outside_stage5.
Qed.

End ScenarioFrame.

(** The scenario engine writes only its own variables (stage, timer, digit
    counter, badge, pinpad buffer, reply label, debug): whatever the state,
    [simulate] leaves the call kind, the tick, both flag sets, the pending
    channel, the register file, the mantle return cells and the diagnostics
    as they were. *)
Theorem simulate_leaves_rest_alone (s : sim_state) :
  same_outside_scenario s (snd (simulate s)).
Proof.
  unfold simulate. destruct (_ =? SIM_CALLTYPE_PPCALL); cbn [snd].
  - apply same_outside_refl.
  - apply same_outside_scenario_run.
Qed.

(* ===================================================================== *)
(** ** Registers, tick and badges across calls *)
(* ===================================================================== *)

Section AcrossCalls.

Lemma wait_state_same_outside c s :
  sim_msg_register (wait_state c s) = sim_msg_register s /\
  sim_tick (wait_state c s) = u64 (sim_tick s + 1) /\
  dbg_out (wait_state c s) = dbg_out s /\
  mantle_ret_count (wait_state c s) = mantle_ret_count s /\
  mantle_ret_badge (wait_state c s) = mantle_ret_badge s.
Proof.
  unfold wait_state, clear_flags.
  destruct (same_outside_scenario_run (wait_entry c s))
    as (_ & Ht & _ & _ & _ & Hr & Hc & Hb & Hd).
  cbn [sim_msg_register sim_tick dbg_out mantle_ret_count mantle_ret_badge
       set_sim_ppcalled set_sim_irq_acked set_sim_notified].
  rewrite Ht, Hr, Hc, Hb, Hd. destruct c; repeat split.
Qed.

Lemma api_exec_registers c s s' :
  api_exec c s = Some s' ->
  sim_msg_register s' =
  match c with
  | MrSet mr value =>
      if 120 <? mr then sim_msg_register s
      else <[Z.to_nat mr := value]> (sim_msg_register s)
  | _ => sim_msg_register s
  end.
Proof.
  destruct c as [ch|ch|mr v|mr|ch m|w]; cbn [api_exec].
  - unfold sel4cp_notify. destruct (_ <? ch); [|destruct (shl_int 1 ch)];
      intros [= Heq]; subst s'; reflexivity.
  - unfold sel4cp_irq_ack. destruct (_ <? ch); [|destruct (shl_int 1 ch)];
      intros [= Heq]; subst s'; reflexivity.
  - intros [= Heq]; subst s'.
    unfold sel4cp_mr_set. destruct (120 <? mr); reflexivity.
  - intros [= Heq]; subst s'.
    unfold sel4cp_mr_get. destruct (120 <? mr); reflexivity.
  - intros Heq.
    assert (s' = snd (sel4cp_ppcall ch m s)) as -> by congruence.
    rewrite sel4cp_ppcall_state. destruct (_ <? ch); reflexivity.
  - intros Heq. assert (s' = snd (wait_step w s)) as -> by congruence.
    rewrite wait_step_eq. cbn [snd].
    destruct (wait_state_same_outside w s) as (Hregs & _). exact Hregs.
Qed.

Lemma api_exec_registers_length c s s' :
  api_exec c s = Some s' ->
  length (sim_msg_register s') = length (sim_msg_register s).
Proof.
  intros H. rewrite (api_exec_registers c s s' H).
  destruct c; try reflexivity.
  destruct (120 <? mr); [reflexivity|apply length_insert].
Qed.

Lemma reachable_registers_length s :
  reachable_from initial_state s ->
  length (sim_msg_register s) = 121%nat.
Proof.
  induction 1 as [|s1 c1 s2 _ IH Hstep]; [reflexivity|].
  rewrite (api_exec_registers_length c1 s1 s2 Hstep). exact IH.
Qed.

End AcrossCalls.

(** The register file keeps its 121 cells in every state reached from the
    initial one, so there a register written within range reads back, and
    it still does after any further call that is not a register write: the
    scenario and the other entry points never touch the registers. *)
Theorem registers_persist
    (s : sim_state) (mr value : Z) (c : api_call) (s' : sim_state) :
  reachable_from initial_state s ->
  0 <= mr <= 120 ->
  (forall mr' value', c <> MrSet mr' value') ->
  api_exec c (sel4cp_mr_set mr value s) = Some s' ->
  length (sim_msg_register s) = 121%nat /\
  fst (sel4cp_mr_get mr (sel4cp_mr_set mr value s)) = value /\
  fst (sel4cp_mr_get mr s') = value /\
  fst (mantle_mr_get mr (snd (mantle_mr_set mr value s))) = value.
Proof.
  intros Hreach Hmr Hc Hexec.
  pose proof (reachable_registers_length s Hreach) as Hlen.
  split; [exact Hlen|].
  pose proof (mr_get_set_same s Hlen mr value Hmr) as Hsame.
  split; [exact Hsame|]. split; [|exact Hsame].
  pose proof (api_exec_registers c _ s' Hexec) as Hregs.
  assert (Hkeep : sim_msg_register s' =
                  sim_msg_register (sel4cp_mr_set mr value s)).
  { rewrite Hregs. destruct c; try reflexivity.
    exfalso. exact (Hc _ _ eq_refl). }
  unfold sel4cp_mr_get in *. destruct (Z.ltb_spec 120 mr); [lia|].
  cbn [fst] in *. rewrite Hkeep. exact Hsame.
Qed.

Lemma registers_persist_witness :
  fst (sel4cp_mr_get 7 (snd (wait_step (Recv 1)
         (sel4cp_mr_set 7 42 initial_state)))) = 42.
Proof.
  apply (registers_persist initial_state 7 42 (Wait (Recv 1))).
  - apply reach_here.
  - lia.
  - intros mr' value'. discriminate.
  - reflexivity.
Defined.

(** A register index above 120 is rejected: the write changes no register
    and the read returns 0, each leaving one more diagnostic. *)
Theorem register_index_out_of_range (s : sim_state) (mr value : Z) :
  120 < mr ->
  sim_msg_register (sel4cp_mr_set mr value s) = sim_msg_register s /\
  fst (sel4cp_mr_get mr s) = 0 /\
  length (dbg_out (sel4cp_mr_set mr value s)) = S (length (dbg_out s)) /\
  length (dbg_out (snd (sel4cp_mr_get mr s))) = S (length (dbg_out s)).
Proof.
  intros Hmr. unfold sel4cp_mr_get, sel4cp_mr_set.
  destruct (Z.ltb_spec 120 mr); [|lia].
  unfold sel4cp_dbg_puts. cbn [fst snd dbg_out set_dbg_out sim_msg_register].
  rewrite !length_app. cbn [length]. repeat split; lia.
Qed.

Lemma register_index_out_of_range_witness :
  sim_msg_register (sel4cp_mr_set 121 9 initial_state)
    = sim_msg_register initial_state /\
  fst (sel4cp_mr_get 121 initial_state) = 0.
Proof.
  destruct (register_index_out_of_range initial_state 121 9) as (H1 & H2 & _).
  - lia.
  - split; assumption.
Defined.

(** A register write within range changes that register only. *)
Theorem register_write_is_local (s : sim_state) (mr mr' value : Z) :
  0 <= mr <= 120 -> 0 <= mr' <= 120 -> mr <> mr' ->
  fst (sel4cp_mr_get mr' (sel4cp_mr_set mr value s)) =
  fst (sel4cp_mr_get mr' s) /\
  length (sim_msg_register (sel4cp_mr_set mr value s)) =
  length (sim_msg_register s).
Proof.
  intros Hmr Hmr' Hne. unfold sel4cp_mr_get, sel4cp_mr_set.
  destruct (Z.ltb_spec 120 mr); [lia|].
  destruct (Z.ltb_spec 120 mr'); [lia|].
  cbn [fst sim_msg_register set_sim_msg_register].
  rewrite list_lookup_insert_ne by lia. rewrite length_insert.
  split; reflexivity.
Qed.

Lemma register_write_is_local_witness :
  fst (sel4cp_mr_get 3 (sel4cp_mr_set 7 42 initial_state)) =
  fst (sel4cp_mr_get 3 initial_state).
Proof.
  apply (register_write_is_local initial_state 7 3 42); lia.
Defined.

Section TickAndBadge.

Lemma u64_add_succ t n : u64 (u64 (t + 1) + n) = u64 (t + (1 + n)).
Proof.
  unfold u64. rewrite Z.add_mod_idemp_l by lia. f_equal. lia.
Qed.

Lemma run_waits_tick cs : forall s,
  0 <= sim_tick s < 2 ^ 64 ->
  sim_tick (snd (run_waits cs s)) = u64 (sim_tick s + Z.of_nat (length cs)).
Proof.
  induction cs as [|c cs IH]; intros s Ht.
  - cbn [run_waits snd length]. rewrite Z.add_0_r.
    symmetry. apply Z.mod_small. exact Ht.
  - rewrite run_waits_cons. cbn [snd length].
    destruct (wait_state_same_outside c s) as (_ & Htick & _).
    rewrite IH, Htick.
    + rewrite u64_add_succ. f_equal. lia.
    + rewrite Htick. apply Z.mod_pos_bound. lia.
Qed.

Lemma scripted_badge_fire_irq s :
  scripted_badge (sim_return_badge s) ->
  scripted_badge (sim_return_badge (fire_irq s)).
Proof.
  intros H. unfold fire_irq. destruct (_ =? 1); [|exact H].
  right. left. reflexivity.
Qed.

Lemma badge_countdown s :
  sim_return_badge (countdown s) = sim_return_badge s.
Proof. unfold countdown. destruct (1 <? _); reflexivity. Qed.

Lemma badge_unmask r s :
  sim_return_badge (unmask_if_acked r s) = sim_return_badge s.
Proof.
  unfold unmask_if_acked. destruct (_ =? 0); [|reflexivity].
  destruct (negb _); reflexivity.
Qed.

Lemma scripted_badge_scenario s :
  scripted_badge (sim_return_badge s) ->
  scripted_badge (sim_return_badge (scenario s)).
Proof.
  intros H0. unfold scenario.
  assert (H1 : scripted_badge (sim_return_badge (stage0 s))).
  { unfold stage0. destruct (_ =? 0); [|exact H0].
    right. right. left. reflexivity. }
  set (s1 := stage0 s) in *. clearbody s1.
  assert (H2 : scripted_badge (sim_return_badge (stage1 s1))).
  { unfold stage1. destruct (_ =? 1); [|exact H1].
    destruct (_ =? 1); exact H1. }
  set (s2 := stage1 s1) in *. clearbody s2.
  assert (H3 : scripted_badge (sim_return_badge (stage2 s2))).
  { unfold stage2. destruct (_ =? 2); [|exact H2]. cbv zeta.
    assert (H : scripted_badge (sim_return_badge
                  (unmask_if_acked 5000000 (fire_irq (countdown s2))))).
    { rewrite badge_unmask. apply scripted_badge_fire_irq.
      rewrite badge_countdown. exact H2. }
    destruct (_ <? 2); exact H. }
  set (s3 := stage2 s2) in *. clearbody s3.
  assert (H4 : scripted_badge (sim_return_badge (stage3 s3))).
  { unfold stage3. destruct (_ =? 3); [|exact H3].
    destruct (negb _); [|exact H3]. right. right. right. reflexivity. }
  set (s4 := stage3 s3) in *. clearbody s4.
  assert (H5 : scripted_badge (sim_return_badge (stage4 s4))).
  { unfold stage4. destruct (_ =? 4); [|exact H4]. cbv zeta.
    destruct (_ =? 1); exact H4. }
  set (s5 := stage4 s4) in *. clearbody s5.
  unfold stage5. destruct (_ =? 5); [|exact H5]. cbv zeta.
  set (t1 := countdown (set_debug 0 s5)).
  assert (Ht1 : scripted_badge (sim_return_badge t1))
    by (unfold t1; rewrite badge_countdown; exact H5).
  set (t2 := if sim_irq_delay t1 =? 100 then _ else t1).
  assert (Ht2 : scripted_badge (sim_return_badge t2)).
  { unfold t2. destruct (_ =? 100); [|exact Ht1].
    right. right. left. reflexivity. }
  assert (H : scripted_badge (sim_return_badge
                (unmask_if_acked 7500000 (fire_irq t2)))).
  { rewrite badge_unmask. apply scripted_badge_fire_irq. exact Ht2. }
  destruct (_ <? 2); exact H.
Qed.

End TickAndBadge.

(** The tick counts the blocking calls: every [seL4_Recv], [seL4_ReplyRecv]
    and [sel4cp_ppcall] adds one (modulo 2^64), so a run of [n]
    receive-style calls adds [n]; [sel4cp_notify], [sel4cp_irq_ack] and the
    register accessors leave it alone. *)
Theorem tick_counts_blocking_calls
    (s : sim_state) (cs : list wait_call) (c : api_call) (s' : sim_state) :
  0 <= sim_tick s < 2 ^ 64 ->
  api_exec c s = Some s' ->
  sim_tick (snd (run_waits cs s)) = u64 (sim_tick s + Z.of_nat (length cs)) /\
  sim_tick s' =
  match c with
  | PPCall _ _ | Wait _ => u64 (sim_tick s + 1)
  | _ => sim_tick s
  end.
Proof.
  intros Ht Hexec. split; [apply run_waits_tick; exact Ht|].
  destruct c as [ch|ch|mr v|mr|ch m|w]; cbn [api_exec] in Hexec.
  - unfold sel4cp_notify in Hexec.
    destruct (_ <? ch); [|destruct (shl_int 1 ch)];
      injection Hexec as Heq || discriminate Hexec; subst s'; reflexivity.
  - unfold sel4cp_irq_ack in Hexec.
    destruct (_ <? ch); [|destruct (shl_int 1 ch)];
      injection Hexec as Heq || discriminate Hexec; subst s'; reflexivity.
  - injection Hexec as Heq; subst s'.
    unfold sel4cp_mr_set. destruct (120 <? mr); reflexivity.
  - injection Hexec as Heq; subst s'.
    unfold sel4cp_mr_get. destruct (120 <? mr); reflexivity.
  - assert (s' = snd (sel4cp_ppcall ch m s)) as -> by congruence.
    destruct (sel4cp_ppcall_record ch s m) as (_ & _ & _ & Htick).
    exact Htick.
  - assert (s' = snd (wait_step w s)) as -> by congruence.
    rewrite wait_step_eq. cbn [snd].
    destruct (wait_state_same_outside w s) as (_ & Htick & _). exact Htick.
Qed.

Lemma tick_counts_blocking_calls_witness :
  sim_tick (snd (run_waits opening_calls initial_state)) = 2.
Proof.
  destruct (tick_counts_blocking_calls initial_state opening_calls
              (MrGet 0) initial_state) as (H & _).
  - cbn. lia.
  - reflexivity.
  - exact H.
Defined.

(** Whatever the state, the badge a receive-style call delivers is one of
    five values: 0 (nothing), 1 (the keypad IRQ on channel 0), or a
    protected-call invitation [2^63 | 1] or [2^63 | 2]; and [mantle_recv]
    and [mantle_replyrecv] store exactly that badge. *)
Theorem delivered_badge_is_scripted
    (c : wait_call) (label count : Z) (s : sim_state) :
  scripted_badge (snd (fst (wait_step c s))) /\
  mantle_get_ret_badge (snd (mantle_recv s))
    = snd (fst (seL4_Recv 1 s)) /\
  mantle_get_ret_badge (snd (mantle_replyrecv label count s))
    = snd (fst (seL4_ReplyRecv 1 (sel4cp_msginfo_new label count) s)).
Proof.
  split; [|split].
  - rewrite wait_step_eq. cbn [fst snd]. unfold wait_badge.
    apply scripted_badge_scenario.
    destruct (wait_entry_fields c s) as (_ & _ & _ & _ & _ & _ & Eb & _).
    rewrite Eb. left. reflexivity.
  - rewrite mantle_recv_eq, seL4_Recv_eq. cbn [fst snd].
    unfold mantle_get_ret_badge, wait_badge.
    cbn [mantle_ret_badge set_mantle_ret_count set_mantle_ret_badge
         wait_entry].
    reflexivity.
  - rewrite mantle_replyrecv_eq, seL4_ReplyRecv_eq. cbv zeta. cbn [fst snd].
    unfold mantle_get_ret_badge, wait_badge.
    cbn [mantle_ret_badge set_mantle_ret_count set_mantle_ret_badge
         wait_entry].
    reflexivity.
Qed.

(* ===================================================================== *)
(** ** Event flags between two waits *)
(* ===================================================================== *)

(** For channels 0 to 30 the flag sets only grow between two waits:
    notifying twice is notifying once, the order of two notifications does
    not matter, a bit once set stays set, and the same holds for
    acknowledgements; neither call touches the other flag set. *)
Theorem event_flags_accumulate (a b : sel4cp_channel) (s : sim_state) :
  0 <= a <= 30 -> 0 <= b <= 30 ->
  (sel4cp_notify a s ≫= sel4cp_notify a) = sel4cp_notify a s /\
  (sel4cp_notify a s ≫= sel4cp_notify b) =
    (sel4cp_notify b s ≫= sel4cp_notify a) /\
  (sel4cp_irq_ack a s ≫= sel4cp_irq_ack a) = sel4cp_irq_ack a s /\
  (sel4cp_irq_ack a s ≫= sel4cp_irq_ack b) =
    (sel4cp_irq_ack b s ≫= sel4cp_irq_ack a) /\
  (sel4cp_notify a s ≫= sel4cp_irq_ack b) =
    (sel4cp_irq_ack b s ≫= sel4cp_notify a) /\
  (exists s1 s2,
     sel4cp_notify a s = Some s1 /\ sel4cp_irq_ack a s = Some s2 /\
     sim_irq_acked s1 = sim_irq_acked s /\
     sim_notified s2 = sim_notified s /\
     forall i,
       (Z.testbit (sim_notified s) i = true ->
        Z.testbit (sim_notified s1) i = true) /\
       (Z.testbit (sim_irq_acked s) i = true ->
        Z.testbit (sim_irq_acked s2) i = true)).
Proof.
  intros Ha Hb.
  rewrite !sel4cp_notify_low, !sel4cp_irq_ack_low by assumption.
  cbn [mbind option_bind].
  rewrite !sel4cp_notify_low, !sel4cp_irq_ack_low by assumption.
  unfold set_sim_notified, set_sim_irq_acked.
  cbn [sim_calltype sim_tick sim_notified sim_irq_acked sim_ppcalled
       sim_reply_label sim_msg_register sim_return_badge debug
       sim_pinpad_input sim_stage sim_irq_delay sim_next_digit
       mantle_ret_count mantle_ret_badge dbg_out].
  rewrite <- !Z.lor_assoc, !Z.lor_diag.
  rewrite (Z.lor_comm (2 ^ a) (2 ^ b)).
  repeat split.
  eexists _, _. repeat split; cbn [sim_notified sim_irq_acked];
    intros Hi; rewrite Z.lor_spec, Hi; reflexivity.
Qed.

Lemma event_flags_accumulate_witness :
  (sel4cp_notify 1 initial_state ≫= sel4cp_notify 3) =
  (sel4cp_notify 3 initial_state ≫= sel4cp_notify 1).
Proof.
  destruct (event_flags_accumulate 1 3 initial_state) as (_ & H & _);
    [lia|lia|exact H].
Defined.

(* ===================================================================== *)
(** ** The gates between the stages *)
(* ===================================================================== *)

Section StageGates.

Ltac fields :=
  cbn [sim_calltype sim_tick sim_notified sim_irq_acked sim_ppcalled
       sim_reply_label sim_msg_register sim_return_badge debug
       sim_pinpad_input sim_stage sim_irq_delay sim_next_digit
       mantle_ret_count mantle_ret_badge dbg_out
       set_sim_calltype set_sim_tick set_sim_notified set_sim_irq_acked
       set_sim_ppcalled set_sim_reply_label set_sim_msg_register
       set_sim_return_badge set_debug set_sim_pinpad_input set_sim_stage
       set_sim_irq_delay set_sim_next_digit set_mantle_ret_count
       set_mantle_ret_badge set_dbg_out] in *.

Ltac side := fields; first [lia | assumption | congruence].

Lemma wait_entry_reply_label c s :
  sim_reply_label (wait_entry c s) = reply_label_seen c s.
Proof. destruct c; reflexivity. Qed.

Lemma stages_from_1 s :
  sim_stage s = 1 -> stage5 (stage4 (stage3 (stage2 s))) = s.
Proof.
  intros H. rewrite (stage2_skip s) by lia. rewrite (stage3_skip s) by lia.
  rewrite (stage4_skip s) by lia. apply stage5_skip. lia.
Qed.

(** Stage 0 with a reply label other than 1 on record. *)
Lemma scenario_invite s :
  sim_stage s = 0 -> sim_reply_label s <> 1 ->
  scenario s =
  set_sim_stage 1 (set_sim_return_badge (Z.lor PPCALL_BADGE 1) s).
Proof.
  intros Hst Hl. unfold scenario.
  assert (E0 : stage0 s =
               set_sim_stage 1 (set_sim_return_badge (Z.lor PPCALL_BADGE 1) s)).
  { unfold stage0. rewrite Hst. reflexivity. }
  rewrite E0. set (s1 := set_sim_stage 1 _).
  assert (E1 : stage1 s1 = s1).
  { unfold stage1, s1. fields.
    destruct (Z.eqb_spec (sim_reply_label s) 1); [contradiction|].
    reflexivity. }
  rewrite E1. apply stages_from_1. reflexivity.
Qed.

(** Stage 1, waiting for the reply. *)
Lemma scenario_waiting_reply s :
  sim_stage s = 1 -> sim_reply_label s <> 1 -> scenario s = s.
Proof.
  intros Hst Hl. unfold scenario. rewrite (stage0_skip s) by lia.
  assert (E1 : stage1 s = s).
  { unfold stage1. rewrite Hst.
    destruct (Z.eqb_spec (sim_reply_label s) 1); [contradiction|].
    reflexivity. }
  rewrite E1. apply stages_from_1. exact Hst.
Qed.

Lemma scenario_reply_accepted s :
  sim_stage s = 1 -> sim_reply_label s = 1 ->
  scenario s = scenario (set_sim_stage 2 s).
Proof.
  intros Hst Hl. unfold scenario. rewrite (stage0_skip s) by lia.
  assert (E1 : stage1 s = set_sim_stage 2 s).
  { unfold stage1. rewrite Hst, Hl. reflexivity. }
  rewrite E1. rewrite (stage0_skip (set_sim_stage 2 s)) by side.
  rewrite (stage1_skip (set_sim_stage 2 s)) by side. reflexivity.
Qed.

(** Stage 3, waiting for the notification on channel 1. *)
Lemma scenario_waiting_notification s :
  sim_stage s = 3 -> Z.land (sim_notified s) 2 = 0 -> scenario s = s.
Proof.
  intros Hst Hn. unfold scenario.
  rewrite (stage0_skip s) by lia. rewrite (stage1_skip s) by lia.
  rewrite (stage2_skip s) by lia.
  assert (E3 : stage3 s = s).
  { unfold stage3. rewrite Hst, Hn. reflexivity. }
  rewrite E3. rewrite (stage4_skip s) by lia. apply stage5_skip. lia.
Qed.

Lemma scenario_notified s :
  sim_stage s = 3 -> Z.land (sim_notified s) 2 <> 0 ->
  scenario s =
  set_debug 1
    (set_sim_reply_label 0
      (set_sim_stage 4
        (set_sim_return_badge (Z.lor PPCALL_BADGE 2) s))).
Proof.
  intros Hst Hn. unfold scenario.
  rewrite (stage0_skip s) by lia. rewrite (stage1_skip s) by lia.
  rewrite (stage2_skip s) by lia.
  assert (E3 : stage3 s =
               set_sim_reply_label 0
                 (set_sim_stage 4
                   (set_sim_return_badge (Z.lor PPCALL_BADGE 2) s))).
  { unfold stage3. rewrite Hst.
    destruct (Z.eqb_spec (Z.land (sim_notified s) 2) 0); [contradiction|].
    reflexivity. }
  rewrite E3. set (s3 := set_sim_reply_label 0 _).
  assert (E4 : stage4 s3 = set_debug 1 s3) by reflexivity.
  rewrite E4. apply stage5_skip. unfold s3. side.
Qed.

(** Stage 4, waiting for the second reply. *)
Lemma scenario_waiting_second_reply s :
  sim_stage s = 4 -> sim_reply_label s <> 1 -> scenario s = set_debug 1 s.
Proof.
  intros Hst Hl. unfold scenario.
  rewrite (stage0_skip s) by lia. rewrite (stage1_skip s) by lia.
  rewrite (stage2_skip s) by lia. rewrite (stage3_skip s) by lia.
  assert (E4 : stage4 s = set_debug 1 s).
  { unfold stage4. rewrite Hst. cbv zeta. fields.
    destruct (Z.eqb_spec (sim_reply_label s) 1); [contradiction|].
    reflexivity. }
  rewrite E4. apply stage5_skip. side.
Qed.

Lemma scenario_second_reply_accepted s :
  sim_stage s = 4 -> sim_reply_label s = 1 ->
  scenario s =
  set_sim_irq_delay 9999
    (set_debug 0 (set_sim_stage 5 (set_sim_next_digit 5 s))).
Proof.
  intros Hst Hl. unfold scenario.
  rewrite (stage0_skip s) by lia. rewrite (stage1_skip s) by lia.
  rewrite (stage2_skip s) by lia. rewrite (stage3_skip s) by lia.
  assert (E4 : stage4 s =
               set_sim_stage 5
                 (set_sim_next_digit 5
                   (set_sim_irq_delay 10000 (set_debug 1 s)))).
  { unfold stage4. rewrite Hst. cbv zeta. fields. rewrite Hl. reflexivity. }
  rewrite E4. reflexivity.
Qed.

End StageGates.

Section GateCalls.

Ltac fields :=
  cbn [sim_calltype sim_tick sim_notified sim_irq_acked sim_ppcalled
       sim_reply_label sim_msg_register sim_return_badge debug
       sim_pinpad_input sim_stage sim_irq_delay sim_next_digit
       mantle_ret_count mantle_ret_badge dbg_out
       set_sim_calltype set_sim_tick set_sim_notified set_sim_irq_acked
       set_sim_ppcalled set_sim_reply_label set_sim_msg_register
       set_sim_return_badge set_debug set_sim_pinpad_input set_sim_stage
       set_sim_irq_delay set_sim_next_digit set_mantle_ret_count
       set_mantle_ret_badge set_dbg_out] in *.

(** The entry state of a call, with the fields the scenario reads. *)
Lemma wait_entry_view c s :
  let e := wait_entry c s in
  sim_stage e = sim_stage s /\
  sim_irq_delay e = sim_irq_delay s /\
  sim_next_digit e = sim_next_digit s /\
  sim_irq_acked e = sim_irq_acked s /\
  sim_notified e = sim_notified s /\
  sim_return_badge e = 0 /\
  sim_reply_label e = reply_label_seen c s.
Proof. destruct c; repeat split. Qed.

Lemma wait_invite c s :
  sim_stage s = 0 -> reply_label_seen c s <> 1 ->
  wait_badge c s = Z.lor PPCALL_BADGE 1 /\
  sim_stage (wait_state c s) = 1 /\
  sim_irq_delay (wait_state c s) = sim_irq_delay s /\
  sim_next_digit (wait_state c s) = sim_next_digit s.
Proof.
  intros Hst Hl. unfold wait_badge, wait_state, clear_flags.
  destruct (wait_entry_view c s) as (Est & Ed & En & _ & _ & _ & El).
  set (e := wait_entry c s) in *.
  rewrite scenario_invite by congruence. fields. repeat split; congruence.
Qed.

Lemma wait_for_reply c s :
  sim_stage s = 1 -> reply_label_seen c s <> 1 ->
  wait_badge c s = 0 /\
  sim_stage (wait_state c s) = 1 /\
  sim_irq_delay (wait_state c s) = sim_irq_delay s /\
  sim_next_digit (wait_state c s) = sim_next_digit s.
Proof.
  intros Hst Hl. unfold wait_badge, wait_state, clear_flags.
  destruct (wait_entry_view c s) as (Est & Ed & En & _ & _ & Eb & El).
  set (e := wait_entry c s) in *.
  rewrite scenario_waiting_reply by congruence. fields. repeat split; congruence.
Qed.

Lemma wait_reply_accepted c s :
  sim_stage s = 1 -> reply_label_seen c s = 1 ->
  2 <= sim_stage (wait_state c s) /\
  (2 < sim_irq_delay s < 2 ^ 64 -> 2 <= sim_next_digit s ->
   wait_badge c s = 0 /\
   sim_stage (wait_state c s) = 2 /\
   sim_irq_delay (wait_state c s) = sim_irq_delay s - 1).
Proof.
  intros Hst Hl. unfold wait_badge, wait_state, clear_flags.
  destruct (wait_entry_view c s) as (Est & Ed & En & _ & _ & Eb & El).
  set (e := wait_entry c s) in *.
  rewrite scenario_reply_accepted by congruence. fields. split.
  - pose proof (scenario_mono (set_sim_stage 2 e)) as H. fields. exact H.
  - intros HD Hn. rewrite scenario_counting_2; fields; lia.
Qed.

Lemma wait_for_notification c s :
  sim_stage s = 3 -> Z.land (sim_notified s) 2 = 0 ->
  wait_badge c s = 0 /\ sim_stage (wait_state c s) = 3.
Proof.
  intros Hst Hn. unfold wait_badge, wait_state, clear_flags.
  destruct (wait_entry_view c s) as (Est & _ & _ & _ & Ent & Eb & _).
  set (e := wait_entry c s) in *.
  rewrite scenario_waiting_notification by congruence. fields. repeat split; congruence.
Qed.

Lemma wait_notified c s :
  sim_stage s = 3 -> Z.land (sim_notified s) 2 <> 0 ->
  wait_badge c s = Z.lor PPCALL_BADGE 2 /\
  sim_stage (wait_state c s) = 4 /\
  sim_reply_label (wait_state c s) = 0 /\
  sim_notified (wait_state c s) = 0.
Proof.
  intros Hst Hn. unfold wait_badge, wait_state, clear_flags.
  destruct (wait_entry_view c s) as (Est & _ & _ & _ & Ent & Eb & _).
  set (e := wait_entry c s) in *.
  rewrite scenario_notified by congruence. fields. repeat split; congruence.
Qed.

Lemma wait_for_second_reply c s :
  sim_stage s = 4 -> reply_label_seen c s <> 1 ->
  wait_badge c s = 0 /\
  sim_stage (wait_state c s) = 4 /\
  sim_irq_delay (wait_state c s) = sim_irq_delay s /\
  sim_next_digit (wait_state c s) = sim_next_digit s.
Proof.
  intros Hst Hl. unfold wait_badge, wait_state, clear_flags.
  destruct (wait_entry_view c s) as (Est & Ed & En & _ & _ & Eb & El).
  set (e := wait_entry c s) in *.
  rewrite scenario_waiting_second_reply by congruence. fields. repeat split; congruence.
Qed.

Lemma wait_second_reply_accepted c s :
  sim_stage s = 4 -> reply_label_seen c s = 1 ->
  wait_badge c s = 0 /\
  sim_stage (wait_state c s) = 5 /\
  sim_irq_delay (wait_state c s) = 9999 /\
  sim_next_digit (wait_state c s) = 5 /\
  sim_irq_acked (wait_state c s) = 0.
Proof.
  intros Hst Hl. unfold wait_badge, wait_state, clear_flags.
  destruct (wait_entry_view c s) as (Est & Ed & En & _ & _ & Eb & El).
  set (e := wait_entry c s) in *.
  rewrite scenario_second_reply_accepted by congruence. fields. repeat split; congruence.
Qed.

Lemma notify_1_sets_bit s :
  exists s1,
    sel4cp_notify 1 s = Some s1 /\
    sim_stage s1 = sim_stage s /\
    Z.land (sim_notified s1) 2 <> 0.
Proof.
  eexists. rewrite sel4cp_notify_low by lia.
  split; [reflexivity|]. split; [reflexivity|].
  cbn [sim_notified set_sim_notified]. intros H.
  apply (f_equal (fun x => Z.testbit x 1)) in H.
  rewrite Z.land_spec, Z.lor_spec in H.
  change (Z.testbit (2 ^ 1) 1) with true in H.
  rewrite orb_true_r in H. discriminate H.
Qed.

End GateCalls.

(** Stage 0, from any state: unless a reply label 1 is on record for this
    call, a receive-style call delivers the protected-call invitation on
    channel 1 (badge [2^63 | 1]) and moves to stage 1; timer and digit
    counter are not touched. *)
Theorem stage0_invites_channel_1 (c : wait_call) (s : sim_state) :
  sim_stage s = 0 -> reply_label_seen c s <> 1 ->
  let '(response, badge, s') := wait_step c s in
  empty_response response /\
  badge = Z.lor PPCALL_BADGE 1 /\
  Z.testbit badge 63 = true /\
  sim_stage s' = 1 /\
  sim_irq_delay s' = sim_irq_delay s /\
  sim_next_digit s' = sim_next_digit s.
Proof.
  intros Hst Hl. rewrite wait_step_eq.
  destruct (wait_invite c s Hst Hl) as (Hb & H1 & H2 & H3).
  split; [apply empty_response_new|]. rewrite Hb. repeat split; assumption.
Qed.

Lemma stage0_invites_channel_1_witness :
  let '(response, badge, s') := wait_step (Recv 1) initial_state in
  empty_response response /\
  badge = Z.lor PPCALL_BADGE 1 /\
  Z.testbit badge 63 = true /\
  sim_stage s' = 1 /\
  sim_irq_delay s' = sim_irq_delay initial_state /\
  sim_next_digit s' = sim_next_digit initial_state.
Proof.
  apply (stage0_invites_channel_1 (Recv 1) initial_state).
  - reflexivity.
  - discriminate.
Defined.

(** Stage 1 is left exactly by a call that sees reply label 1.  With any
    other label the call delivers nothing and changes neither timer nor
    digit counter; with label 1 the stage becomes at least 2, and since the
    first PIN entry stage runs in that same call, a timer above 2 has
    already been counted down once when the call returns. *)
Theorem stage1_waits_for_reply_label_1 (c : wait_call) (s : sim_state) :
  sim_stage s = 1 ->
  let '(_, badge, s') := wait_step c s in
  (sim_stage s' = 1 <-> reply_label_seen c s <> 1) /\
  (reply_label_seen c s <> 1 ->
   badge = 0 /\
   sim_irq_delay s' = sim_irq_delay s /\
   sim_next_digit s' = sim_next_digit s) /\
  (reply_label_seen c s = 1 ->
   2 < sim_irq_delay s < 2 ^ 64 -> 2 <= sim_next_digit s ->
   badge = 0 /\ sim_stage s' = 2 /\
   sim_irq_delay s' = sim_irq_delay s - 1).
Proof.
  intros Hst. rewrite wait_step_eq.
  destruct (Z.eq_dec (reply_label_seen c s) 1) as [Hl|Hl].
  - destruct (wait_reply_accepted c s Hst Hl) as (Hge & Hcount).
    split; [|split].
    + split; [lia|contradiction].
    + contradiction.
    + intros _. exact Hcount.
  - destruct (wait_for_reply c s Hst Hl) as (Hb & H1 & H2 & H3).
    split; [|split].
    + split; auto.
    + auto.
    + contradiction.
Qed.

Lemma stage1_waits_for_reply_label_1_witness :
  sim_stage (snd (wait_step (ReplyRecv 1 (sel4cp_msginfo_new 1 0))
                    (set_sim_stage 1 initial_state))) = 2.
Proof.
  pose proof (stage1_waits_for_reply_label_1
                (ReplyRecv 1 (sel4cp_msginfo_new 1 0))
                (set_sim_stage 1 initial_state) eq_refl) as H.
  destruct (wait_step _ _) as [[r b] s'].
  destruct H as (_ & _ & H). cbn [snd].
  apply H; [reflexivity|cbn; lia|cbn; lia].
Defined.

(** Stage 3 is left exactly by a call that finds bit 1 of the notified
    flags set, i.e. after [sel4cp_notify(1)]: that call delivers the
    invitation on channel 2, moves to stage 4 and resets the recorded reply
    label to 0, so even a [reply_recv] with label 1 cannot pass stage 4 in
    the same call.  Without the notification nothing is delivered. *)
Theorem stage3_waits_for_notify_1 (c : wait_call) (s : sim_state) :
  sim_stage s = 3 ->
  (let '(_, badge, s') := wait_step c s in
   (Z.land (sim_notified s) 2 = 0 -> badge = 0 /\ sim_stage s' = 3) /\
   (Z.land (sim_notified s) 2 <> 0 ->
    badge = Z.lor PPCALL_BADGE 2 /\ sim_stage s' = 4 /\
    sim_reply_label s' = 0)) /\
  (exists s1,
     sel4cp_notify 1 s = Some s1 /\
     let '(_, badge, s') := wait_step c s1 in
     badge = Z.lor PPCALL_BADGE 2 /\ sim_stage s' = 4 /\
     sim_notified s' = 0).
Proof.
  intros Hst. split.
  - rewrite wait_step_eq. split.
    + intros Hn. apply wait_for_notification; assumption.
    + intros Hn. destruct (wait_notified c s Hst Hn) as (H1 & H2 & H3 & _).
      auto.
  - destruct (notify_1_sets_bit s) as (s1 & E1 & Hst1 & Hbit).
    exists s1. split; [exact E1|]. rewrite wait_step_eq.
    destruct (wait_notified c s1 ltac:(congruence) Hbit)
      as (H1 & H2 & _ & H4).
    auto.
Qed.

Lemma stage3_waits_for_notify_1_witness :
  exists s1,
    sel4cp_notify 1 (set_sim_stage 3 initial_state) = Some s1 /\
    let '(_, badge, s') := wait_step (Recv 1) s1 in
    badge = Z.lor PPCALL_BADGE 2 /\ sim_stage s' = 4 /\
    sim_notified s' = 0.
Proof.
  exact (proj2 (stage3_waits_for_notify_1 (Recv 1)
                  (set_sim_stage 3 initial_state) eq_refl)).
Defined.

(** Stage 4 is left exactly by a call that sees reply label 1: the second
    PIN entry stage is then entered with five digits to type and its timer,
    loaded with 10000, already counted down to 9999 by the same call, ready
    for the countdown of C1.  Any other label leaves stage, timer and digit
    counter as they were.  Nothing is delivered either way. *)
Theorem stage4_waits_for_reply_label_1 (c : wait_call) (s : sim_state) :
  sim_stage s = 4 ->
  let '(_, badge, s') := wait_step c s in
  badge = 0 /\
  (reply_label_seen c s <> 1 ->
   sim_stage s' = 4 /\
   sim_irq_delay s' = sim_irq_delay s /\
   sim_next_digit s' = sim_next_digit s) /\
  (reply_label_seen c s = 1 ->
   sim_stage s' = 5 /\ sim_next_digit s' = 5 /\ pin_entry 9999 s').
Proof.
  intros Hst. rewrite wait_step_eq.
  destruct (Z.eq_dec (reply_label_seen c s) 1) as [Hl|Hl].
  - destruct (wait_second_reply_accepted c s Hst Hl)
      as (Hb & H1 & H2 & H3 & H4).
    split; [exact Hb|]. split; [contradiction|]. intros _.
    split; [exact H1|]. split; [exact H3|].
    unfold pin_entry, pin_stage. rewrite H1, H2, H3, H4.
    repeat split; auto; lia.
  - destruct (wait_for_second_reply c s Hst Hl) as (Hb & H1 & H2 & H3).
    split; [exact Hb|]. split; [auto|contradiction].
Qed.

Lemma stage4_waits_for_reply_label_1_witness :
  pin_entry 9999
    (snd (wait_step (ReplyRecv 1 (sel4cp_msginfo_new 1 0))
            (set_sim_stage 4 initial_state))).
Proof.
  pose proof (stage4_waits_for_reply_label_1
                (ReplyRecv 1 (sel4cp_msginfo_new 1 0))
                (set_sim_stage 4 initial_state) eq_refl) as H.
  destruct (wait_step _ _) as [[r b] s'].
  destruct H as (_ & _ & H). cbn [snd]. apply H. reflexivity.
Defined.

(** The request label of a protected call is recorded in the same variable
    as the label of a reply, so it acts as one: in stage 1 or stage 4, a
    [sel4cp_ppcall] with request label 1 followed by a plain [seL4_Recv]
    advances the stage although no reply was sent. *)
Theorem ppcall_label_acts_as_reply
    (ch : sel4cp_channel) (msginfo : sel4cp_msginfo) (src : Z)
    (s : sim_state) :
  sim_stage s = 1 \/ sim_stage s = 4 ->
  seL4_MessageInfo_get_label msginfo = 1 ->
  let s1 := snd (sel4cp_ppcall ch msginfo s) in
  sim_stage s1 = sim_stage s /\
  sim_stage s < sim_stage (snd (seL4_Recv src s1)).
Proof.
  intros Hst Hl. cbv zeta.
  destruct (sel4cp_ppcall_record ch s msginfo) as (_ & _ & Hrl & _).
  pose proof (sel4cp_ppcall_stage ch msginfo s) as Hs1.
  set (s1 := snd (sel4cp_ppcall ch msginfo s)) in *.
  split; [exact Hs1|].
  change (seL4_Recv src s1) with (wait_step (Recv src) s1).
  rewrite wait_step_eq. cbn [snd].
  assert (Hseen : reply_label_seen (Recv src) s1 = 1)
    by (cbn [reply_label_seen]; rewrite Hrl; exact Hl).
  destruct Hst as [Hst|Hst].
  - destruct (wait_reply_accepted (Recv src) s1 ltac:(congruence) Hseen)
      as (Hge & _). lia.
  - destruct (wait_second_reply_accepted (Recv src) s1
                ltac:(congruence) Hseen) as (_ & H5 & _). lia.
Qed.

Lemma ppcall_label_acts_as_reply_witness :
  let s1 := snd (sel4cp_ppcall 1 (sel4cp_msginfo_new 1 0)
                   (set_sim_stage 4 initial_state)) in
  sim_stage s1 = 4 /\ 4 < sim_stage (snd (seL4_Recv 1 s1)).
Proof.
  apply (ppcall_label_acts_as_reply 1 (sel4cp_msginfo_new 1 0) 1
           (set_sim_stage 4 initial_state)).
  - right. reflexivity.
  - reflexivity.
Defined.

(* ===================================================================== *)
(** ** PIN entry: typing all digits *)
(* ===================================================================== *)

Section Typing.

Ltac fields :=
  cbn [sim_calltype sim_tick sim_notified sim_irq_acked sim_ppcalled
       sim_reply_label sim_msg_register sim_return_badge debug
       sim_pinpad_input sim_stage sim_irq_delay sim_next_digit
       mantle_ret_count mantle_ret_badge dbg_out
       set_sim_calltype set_sim_tick set_sim_notified set_sim_irq_acked
       set_sim_ppcalled set_sim_reply_label set_sim_msg_register
       set_sim_return_badge set_debug set_sim_pinpad_input set_sim_stage
       set_sim_irq_delay set_sim_next_digit set_mantle_ret_count
       set_mantle_ret_badge set_dbg_out] in *.

Ltac side := fields; first [lia | assumption | congruence].

(** The acknowledged call that consumes the last digit moves on by exactly
    one stage when no notification on channel 1 is pending. *)
Lemma scenario_acked_last s :
  pin_stage s -> sim_irq_delay s = 0 -> Z.land (sim_irq_acked s) 1 <> 0 ->
  u64 (sim_next_digit s - 1) < 2 -> Z.land (sim_notified s) 2 = 0 ->
  sim_stage (scenario s) = sim_stage s + 1.
Proof.
  intros [Hst|Hst] Hd Ha Hlast Hn.
  - rewrite scenario_stage2, stage2_body by assumption. cbv zeta.
    rewrite countdown_le by lia. rewrite fire_irq_skip by lia.
    rewrite unmask_acked by assumption. fields.
    destruct (Z.ltb_spec (u64 (sim_next_digit s - 1)) 2); [|lia].
    set (s3 := set_sim_stage 3 _).
    assert (E3 : stage3 s3 = s3).
    { unfold stage3, s3. fields. rewrite Hn. reflexivity. }
    rewrite E3. rewrite (stage4_skip s3) by (unfold s3; side).
    rewrite (stage5_skip s3) by (unfold s3; side).
    unfold s3. fields. lia.
  - rewrite scenario_stage5, stage5_body by assumption. cbv zeta.
    rewrite countdown_le by side. fields. rewrite Hd.
    change (0 =? 100) with false. cbv iota.
    rewrite fire_irq_skip by side. rewrite unmask_acked by side. fields.
    destruct (Z.ltb_spec (u64 (sim_next_digit s - 1)) 2); [|lia].
    fields. lia.
Qed.

Lemma wait_acked_last c s :
  pin_stage s -> sim_irq_delay s = 0 -> Z.land (sim_irq_acked s) 1 <> 0 ->
  u64 (sim_next_digit s - 1) < 2 -> Z.land (sim_notified s) 2 = 0 ->
  sim_stage (wait_state c s) = sim_stage s + 1.
Proof.
  intros Hpin Hd Ha Hlast Hn. unfold wait_state.
  destruct (wait_entry_fields c s) as (Est & Ed & En & Ea & Ent & _).
  rewrite sim_stage_clear_flags.
  rewrite scenario_acked_last; try congruence.
  unfold pin_stage in *. rewrite Est. exact Hpin.
Qed.

Lemma repeat_snoc {A} (x : A) n : repeat x (S n) = repeat x n ++ [x].
Proof.
  induction n as [|n IH]; [reflexivity|].
  cbn [repeat app] in *. rewrite <- IH. reflexivity.
Qed.

Lemma run_waits_notified cs : forall s,
  cs <> [] -> sim_notified (snd (run_waits cs s)) = 0.
Proof.
  induction cs as [|c cs IH]; intros s Hne; [contradiction|].
  rewrite run_waits_cons. cbn [snd].
  destruct cs as [|c' cs'].
  - reflexivity.
  - apply IH. discriminate.
Qed.

Lemma pin_round_eq waits s :
  pin_round waits s =
  match sel4cp_irq_ack 0 (snd (run_waits (repeat (Recv 1) waits) s)) with
  | Some s2 =>
      Some (sim_pinpad_input (snd (run_waits (repeat (Recv 1) waits) s)),
            wait_state (Recv 1) s2)
  | None => None
  end.
Proof.
  unfold pin_round. destruct (run_waits (repeat (Recv 1) waits) s) as [bs s1].
  cbn [snd]. destruct (sel4cp_irq_ack 0 s1) as [s2|]; [|reflexivity].
  rewrite wait_step_eq. reflexivity.
Qed.

Lemma run_waits_snoc_state cs c s :
  snd (run_waits (cs ++ [c]) s) = wait_state c (snd (run_waits cs s)).
Proof.
  rewrite run_waits_app. cbn [snd]. rewrite run_waits_cons. reflexivity.
Qed.

Lemma wait_state_notified c s : sim_notified (wait_state c s) = 0.
Proof. reflexivity. Qed.

(** The waits of a round: after [D - 1] receive calls the IRQ has fired
    and the digit is in the buffer. *)
Lemma run_until_irq D s :
  pin_entry D s ->
  let s2 := snd (run_waits (repeat (Recv 1) (Z.to_nat (D - 1))) s) in
  sim_stage s2 = sim_stage s /\
  sim_irq_delay s2 = 0 /\
  sim_next_digit s2 = sim_next_digit s /\
  sim_pinpad_input s2 = u8 (sim_next_digit s) /\
  sim_notified s2 = 0.
Proof.
  intros (Hpin & Hd & HD & Hn & Ha). cbv zeta.
  assert (Hwaits : Z.to_nat (D - 1) = S (Z.to_nat (D - 2))) by lia.
  rewrite Hwaits, repeat_snoc, run_waits_snoc_state.
  assert (Hlen : Z.of_nat (length (repeat (Recv 1) (Z.to_nat (D - 2))))
                 = D - 2)
    by (rewrite repeat_length; lia).
  destruct (run_counting (repeat (Recv 1) (Z.to_nat (D - 2))) s Hpin
              ltac:(lia) ltac:(lia) ltac:(lia))
    as (_ & _ & C3 & C4 & C5 & C6 & C7).
  specialize (C7 Ha).
  set (s1 := snd (run_waits _ s)) in *. clearbody s1.
  assert (Hpin1 : pin_stage s1) by exact (pin_stage_eq _ _ C3 Hpin).
  destruct (wait_fire (Recv 1) s1 Hpin1 ltac:(lia) ltac:(lia) C7)
    as (_ & F2 & F3 & F4 & F5 & F6).
  pose proof (wait_state_notified (Recv 1) s1) as F7.
  repeat split; congruence.
Qed.

(** The acknowledgement of a round and the call that sees it. *)
Lemma ack_and_wait s :
  pin_stage s -> sim_irq_delay s = 0 ->
  2 <= sim_next_digit s < 2 ^ 64 -> sim_notified s = 0 ->
  exists s4,
    sel4cp_irq_ack 0 s = Some s4 /\
    sim_next_digit (wait_state (Recv 1) s4) = sim_next_digit s - 1 /\
    sim_irq_delay (wait_state (Recv 1) s4) = reload_delay s /\
    sim_irq_acked (wait_state (Recv 1) s4) = 0 /\
    (3 <= sim_next_digit s ->
     sim_stage (wait_state (Recv 1) s4) = sim_stage s) /\
    (sim_next_digit s = 2 ->
     sim_stage (wait_state (Recv 1) s4) = sim_stage s + 1).
Proof.
  intros Hpin Hd Hn Hnt.
  destruct (irq_ack_0_sets_bit s) as (s4 & E4 & Hs4 & Hbit).
  exists s4. split; [exact E4|].
  assert (Hst4 : sim_stage s4 = sim_stage s) by (rewrite Hs4; reflexivity).
  assert (Hd4 : sim_irq_delay s4 = 0) by (rewrite Hs4; exact Hd).
  assert (Hn4 : sim_next_digit s4 = sim_next_digit s)
    by (rewrite Hs4; reflexivity).
  assert (Hnt4 : sim_notified s4 = 0) by (rewrite Hs4; exact Hnt).
  assert (Hpin4 : pin_stage s4) by exact (pin_stage_eq _ _ Hst4 Hpin).
  clear Hs4.
  destruct (wait_acked (Recv 1) s4 Hpin4 Hd4 Hbit) as (_ & A2 & A3 & _ & A5).
  pose proof (wait_pin_exit (Recv 1) s4 Hpin4) as Hexit.
  assert (Hu : u64 (sim_next_digit s4 - 1) = sim_next_digit s - 1)
    by (rewrite u64_small; lia).
  assert (Hr : reload_delay s4 = reload_delay s)
    by (unfold reload_delay; rewrite Hst4; reflexivity).
  assert (Hlast : sim_next_digit s = 2 ->
                  sim_stage (wait_state (Recv 1) s4) = sim_stage s4 + 1).
  { intros H2. apply (wait_acked_last (Recv 1) s4 Hpin4 Hd4 Hbit).
    - lia.
    - rewrite Hnt4. reflexivity. }
  set (s5 := wait_state (Recv 1) s4) in *. clearbody s5.
  split; [congruence|]. split; [congruence|]. split; [exact A5|]. split.
  - intros H3. rewrite <- Hst4. apply Hexit. lia.
  - intros H2. rewrite (Hlast H2). lia.
Qed.

(** One round of the typing loop. *)
Lemma pin_round_spec D s :
  pin_entry D s ->
  exists s',
    pin_round (Z.to_nat (D - 1)) s = Some (u8 (sim_next_digit s), s') /\
    sim_next_digit s' = sim_next_digit s - 1 /\
    (3 <= sim_next_digit s -> pin_entry (reload_delay s) s' /\
                              sim_stage s' = sim_stage s) /\
    (sim_next_digit s = 2 -> sim_stage s' = sim_stage s + 1).
Proof.
  intros Hentry.
  destruct (run_until_irq D s Hentry) as (R1 & R2 & R3 & R4 & R5).
  destruct Hentry as (Hpin & Hd & HD & Hn & Ha).
  rewrite pin_round_eq.
  set (s2 := snd (run_waits _ s)) in *. clearbody s2.
  destruct (ack_and_wait s2 (pin_stage_eq _ _ R1 Hpin) R2 ltac:(lia) R5)
    as (s4 & E4 & A1 & A2 & A3 & A4 & A5).
  rewrite E4.
  assert (Hr : reload_delay s2 = reload_delay s)
    by (unfold reload_delay; rewrite R1; reflexivity).
  set (s5 := wait_state (Recv 1) s4) in *. clearbody s5.
  exists s5. split; [rewrite R4; reflexivity|].
  split; [lia|]. split.
  - intros H3.
    assert (Hst5 : sim_stage s5 = sim_stage s) by (rewrite A4; lia).
    split; [|exact Hst5].
    unfold pin_entry. split; [exact (pin_stage_eq _ _ Hst5 Hpin)|].
    split; [congruence|]. split.
    { unfold reload_delay. destruct (sim_stage s =? 2); lia. }
    split; [lia|]. rewrite A3. reflexivity.
  - intros H2. rewrite A5; lia.
Qed.

Lemma pin_rounds_spec k : forall D s,
  pin_entry D s ->
  Z.of_nat k = sim_next_digit s - 1 ->
  exists s',
    pin_rounds k (Z.to_nat (D - 1)) s
      = Some (digits_from k (sim_next_digit s), s') /\
    sim_stage s' = sim_stage s + 1 /\
    sim_next_digit s' = 1.
Proof.
  induction k as [|k IH]; intros D s Hentry Hk.
  - destruct Hentry as (_ & _ & _ & Hn & _). lia.
  - destruct (pin_round_spec D s Hentry) as (s1 & Hround & Hn1 & Hmore & Hlast).
    cbn [pin_rounds digits_from]. rewrite Hround.
    destruct k as [|k'].
    + cbn [pin_rounds digits_from]. exists s1.
      split; [reflexivity|]. split; [apply Hlast; lia|lia].
    + destruct Hmore as (Hentry1 & Hst1); [lia|].
      assert (Hw : (Z.to_nat (reload_delay s) - 1)%nat
                   = Z.to_nat (reload_delay s - 1)) by lia.
      rewrite Hw.
      destruct (IH (reload_delay s) s1 Hentry1 ltac:(lia))
        as (s' & Hrounds & Hst & Hn).
      rewrite Hrounds, Hn1. exists s'.
      split; [reflexivity|]. split; [lia|exact Hn].
Qed.

End Typing.

(** Typing a whole PIN.  From a PIN entry stage whose digit counter holds
    [n], a protection domain that waits for each keypad IRQ, reads the
    pinpad buffer, acknowledges on channel 0 and waits once more reads the
    digits [n], [n - 1], ..., 2 in that order, one per round, and the last
    acknowledged call moves the scenario on to the next stage with the
    counter at 1.  The first IRQ takes [D - 1] receive calls; every later
    one takes as many receive calls as the reload value of the stage,
    counting the call that saw the acknowledgement. *)
Theorem pin_digits_typed_in_order (D : Z) (s : sim_state) :
  pin_entry D s ->
  exists s',
    pin_rounds (Z.to_nat (sim_next_digit s - 1)) (Z.to_nat (D - 1)) s
      = Some (digits_from (Z.to_nat (sim_next_digit s - 1))
                (sim_next_digit s), s') /\
    sim_stage s' = sim_stage s + 1 /\
    sim_next_digit s' = 1.
Proof.
  intros Hentry. apply pin_rounds_spec; [exact Hentry|].
  destruct Hentry as (_ & _ & _ & Hn & _). lia.
Qed.

Lemma pin_digits_typed_in_order_witness :
  pin_entry 3 (pin_entry_state 3) /\
  exists s',
    pin_rounds (Z.to_nat (sim_next_digit (pin_entry_state 3) - 1))
      (Z.to_nat (3 - 1)) (pin_entry_state 3)
      = Some (digits_from (Z.to_nat (sim_next_digit (pin_entry_state 3) - 1))
                (sim_next_digit (pin_entry_state 3)), s') /\
    sim_stage s' = sim_stage (pin_entry_state 3) + 1 /\
    sim_next_digit s' = 1.
Proof.
  assert (H : pin_entry 3 (pin_entry_state 3)).
  { unfold pin_entry, pin_stage. cbn. repeat split; auto; lia. }
  split; [exact H|]. exact (pin_digits_typed_in_order 3 (pin_entry_state 3) H).
Defined.

(** The digits of the scripted PIN: five is the counter both PIN entry
    stages start from, so each of them delivers 5, 4, 3, 2. *)
Lemma scripted_pin_digits : digits_from 4 5 = [5; 4; 3; 2].
Proof. reflexivity. Qed.

(* ===================================================================== *)
(** ** An invariant of the scripted run *)
(* ===================================================================== *)

Section ScriptInvariant.

Ltac fields :=
  cbn [sim_calltype sim_tick sim_notified sim_irq_acked sim_ppcalled
       sim_reply_label sim_msg_register sim_return_badge debug
       sim_pinpad_input sim_stage sim_irq_delay sim_next_digit
       mantle_ret_count mantle_ret_badge dbg_out
       set_sim_calltype set_sim_tick set_sim_notified set_sim_irq_acked
       set_sim_ppcalled set_sim_reply_label set_sim_msg_register
       set_sim_return_badge set_debug set_sim_pinpad_input set_sim_stage
       set_sim_irq_delay set_sim_next_digit set_mantle_ret_count
       set_mantle_ret_badge set_dbg_out] in *.

Ltac split_ifs :=
  repeat match goal with
    | |- context [if negb ?b then _ else _] => destruct b; cbn [negb]
    | |- context [if ?a =? ?b then _ else _] =>
        destruct (Z.eqb_spec a b); fields
    | |- context [if ?a <? ?b then _ else _] =>
        destruct (Z.ltb_spec a b); fields
    end.

Ltac small_mods :=
  unfold u64, u8 in *;
  repeat match goal with
    | H : context [?x mod ?m] |- _ => rewrite (Z.mod_small x m) in H by lia
    | |- context [?x mod ?m] => rewrite (Z.mod_small x m) by lia
    end.

Ltac invariant_step :=
  intros (Hs & Hn & Hd & Hp & Hpin);
  unfold script_invariant, TERMINAL_STAGE in *;
  split_ifs; small_mods; repeat split; lia.

Lemma invariant_stage0 s : script_invariant s -> script_invariant (stage0 s).
Proof. unfold stage0. invariant_step. Qed.

Lemma invariant_stage1 s : script_invariant s -> script_invariant (stage1 s).
Proof. unfold stage1. invariant_step. Qed.

Lemma invariant_stage2 s : script_invariant s -> script_invariant (stage2 s).
Proof.
  unfold stage2, unmask_if_acked, fire_irq, countdown. cbv zeta.
  invariant_step.
Qed.

Lemma invariant_stage3 s : script_invariant s -> script_invariant (stage3 s).
Proof. unfold stage3. invariant_step. Qed.

Lemma invariant_stage4 s : script_invariant s -> script_invariant (stage4 s).
Proof. unfold stage4. cbv zeta. invariant_step. Qed.

Lemma invariant_stage5 s : script_invariant s -> script_invariant (stage5 s).
Proof.
  unfold stage5, unmask_if_acked, fire_irq, countdown. cbv zeta.
  invariant_step.
Qed.

Lemma invariant_scenario s : script_invariant s -> script_invariant (scenario s).
Proof.
  intros H. unfold scenario.
  apply invariant_stage5, invariant_stage4, invariant_stage3,
    invariant_stage2, invariant_stage1, invariant_stage0. exact H.
Qed.

Lemma invariant_same_fields s s' :
  sim_stage s' = sim_stage s -> sim_next_digit s' = sim_next_digit s ->
  sim_irq_delay s' = sim_irq_delay s ->
  sim_pinpad_input s' = sim_pinpad_input s ->
  script_invariant s -> script_invariant s'.
Proof.
  unfold script_invariant. intros -> -> -> ->. exact (fun H => H).
Qed.

Lemma invariant_wait_state c s :
  script_invariant s -> script_invariant (wait_state c s).
Proof.
  intros H. unfold wait_state.
  apply (invariant_same_fields (scenario (wait_entry c s)));
    try reflexivity.
  apply invariant_scenario.
  apply (invariant_same_fields s); try (destruct c; reflexivity).
  exact H.
Qed.

Lemma invariant_api_exec c s s' :
  api_exec c s = Some s' -> script_invariant s -> script_invariant s'.
Proof.
  destruct c as [ch|ch|mr v|mr|ch m|w]; cbn [api_exec].
  - unfold sel4cp_notify. destruct (_ <? ch); [|destruct (shl_int 1 ch)];
      intros [= Heq]; subst s'; exact (fun H => H).
  - unfold sel4cp_irq_ack. destruct (_ <? ch); [|destruct (shl_int 1 ch)];
      intros [= Heq]; subst s'; exact (fun H => H).
  - intros [= Heq]; subst s'.
    unfold sel4cp_mr_set. destruct (120 <? mr); exact (fun H => H).
  - intros [= Heq]; subst s'.
    unfold sel4cp_mr_get. destruct (120 <? mr); exact (fun H => H).
  - intros Heq.
    assert (s' = snd (sel4cp_ppcall ch m s)) as -> by congruence.
    rewrite sel4cp_ppcall_state.
    destruct (_ <? ch); exact (fun H => H).
  - intros Heq. assert (s' = snd (wait_step w s)) as -> by congruence.
    rewrite wait_step_eq. cbn [snd]. apply invariant_wait_state.
Qed.

End ScriptInvariant.

(** In every state of a run from the initial state the stage is within
    0..6, the digit counter within 1..5 (it never wraps below zero), the
    timer within 0..7500000 and the pinpad buffer holds 0 or a digit up to
    5; in the opening and PIN entry stages at least one digit (counter at
    least 2) is still to come. *)
Theorem run_keeps_script_invariant (s : sim_state) :
  reachable_from initial_state s -> script_invariant s.
Proof.
  induction 1 as [|s1 c s2 _ IH Hstep].
  - unfold script_invariant, TERMINAL_STAGE. cbn. lia.
  - exact (invariant_api_exec c s1 s2 Hstep IH).
Qed.

Lemma run_keeps_script_invariant_witness :
  script_invariant (snd (wait_step (Recv 1) initial_state)).
Proof.
  apply run_keeps_script_invariant.
  apply (reach_call initial_state initial_state (Wait (Recv 1))).
  - apply reach_here.
  - reflexivity.
Defined.

(** No call ever gets a non-empty envelope: in every state and stage
    [simulate] answers with label 0 and length 0, so [seL4_Recv],
    [seL4_ReplyRecv], [mantle_recv] and [mantle_replyrecv] return label 0
    with a return count of 0; what the scenario has to say travels in the
    badge alone. *)
Theorem responses_always_empty
    (c : wait_call) (label count : Z) (s : sim_state) :
  empty_response (fst (simulate s)) /\
  empty_response (fst (fst (wait_step c s))) /\
  fst (mantle_recv s) = 0 /\
  mantle_get_ret_count (snd (mantle_recv s)) = 0 /\
  fst (mantle_replyrecv label count s) = 0 /\
  mantle_get_ret_count (snd (mantle_replyrecv label count s)) = 0.
Proof.
  rewrite simulate_response, wait_step_eq, mantle_recv_eq,
    mantle_replyrecv_eq.
  cbv zeta. cbn [fst snd].
  repeat split; apply empty_response_new.
Qed.

(* ===================================================================== *)
(** ** libmantle prelude: array indexing *)
(* ===================================================================== *)

Section ArrayIndex.

Import Prelude.

Variable size_max : Z.
Variable array : au_span_t.
Variables index elem_size : Z.
Hypothesis Hindex : 0 <= index.
Hypothesis Helem : 0 <= elem_size.




End ArrayIndex.





(* ===================================================================== *)
(** ** Protected calls on a channel out of range *)
(* ===================================================================== *)

(** Unlike [sel4cp_notify] and [sel4cp_irq_ack], [sel4cp_ppcall] does not
    give up on a channel above 63: it writes one diagnostic and then makes
    the call all the same, recording the channel as given, counting the
    tick and returning the empty envelope; a channel within range leaves no
    diagnostic. *)
Theorem ppcall_channel_too_large_still_calls
    (ch : sel4cp_channel) (msginfo : sel4cp_msginfo) (s : sim_state) :
  let '(response, s') := sel4cp_ppcall ch msginfo s in
  empty_response response /\
  sim_ppcalled s' = ch /\
  sim_calltype s' = SIM_CALLTYPE_PPCALL /\
  sim_tick s' = u64 (sim_tick s + 1) /\
  (63 < ch ->
   dbg_out s' = dbg_out s ++ [("[MOCK] sel4cp_ppcall: ch too large" ++ nl)%string]) /\
  (ch <= 63 -> dbg_out s' = dbg_out s).
Proof.
  rewrite sel4cp_ppcall_eta, sel4cp_ppcall_state.
  split; [apply empty_response_new|].
  unfold SEL4CP_MAX_CHANNELS.
  destruct (Z.ltb_spec 63 ch); repeat split; intros; try lia; reflexivity.
Qed.
